(** * Date tasks of core-js-101 ([src/04-date-tasks.js])

    The five exported functions are thin layers over the JavaScript [Date]
    built-in.  The first module embeds the part of ECMA-262 ("Date Objects",
    "Number::toString", a few [Math] functions) that those functions call;
    the second module embeds the five functions themselves, line by line;
    the theorems follow. *)

From Stdlib Require Import ZArith QArith List Bool Ascii String Lia DecimalString.
From Stdlib Require PrimFloat FloatOps SpecFloat Uint63.
Import ListNotations PrimFloat.PrimFloatNotations.

Local Open Scope string_scope.
Local Open Scope Z_scope.

(* ================================================================== *)
(** ** The JavaScript platform, as far as the date tasks use it      *)
(* ================================================================== *)

Module JS.

(** Every Number that flows through the time arithmetic of the tasks is
    either [NaN] or an integer-valued double, so such Numbers are carried
    as integers.  The clock-angle task needs fractions and uses the
    kernel's binary64 floats (further down). *)
Inductive Number : Type :=
| NaN : Number
| Int : Z -> Number.

(** *** Integer-valued doubles

    The exact result of an operation is rounded to 53 significant bits,
    to nearest, ties to even.  Below 2^53 it is the identity. *)
Definition round53 (z : Z) : Z :=
  let a := Z.abs z in
  let e := Z.log2 a - 52 in
  if e <=? 0 then z
  else
    let q := 2 ^ e in
    let lo := a / q in
    let r := a mod q in
    let half := q / 2 in
    let m := if r <? half then lo
             else if half <? r then lo + 1
             else if Z.even lo then lo else lo + 1 in
    Z.sgn z * (m * q).

Definition lift2 (f : Z -> Z -> Z) (a b : Number) : Number :=
  match a, b with
  | Int x, Int y => Int (round53 (f x y))
  | _, _ => NaN
  end.

(** [a - b], [a * b] on integer-valued Numbers. *)
Definition sub : Number -> Number -> Number := lift2 Z.sub.
Definition mul : Number -> Number -> Number := lift2 Z.mul.

(** [Math.abs]. *)
Definition Math_abs (a : Number) : Number :=
  match a with
  | NaN => NaN
  | Int x => Int (Z.abs x)
  end.

(** [Math.trunc(a / b)] for integer-valued [a] and a positive integer [b].
    For [|a| < 2^53], and for even [a] up to [2^54] with the divisors used
    here, the rounding error of the double quotient is smaller than its
    distance to the next integer, so truncating the double quotient gives
    the integer quotient. *)
Definition Math_trunc_div (a b : Number) : Number :=
  match a, b with
  | Int x, Int y => if y =? 0 then NaN else Int (Z.quot x y)
  | _, _ => NaN
  end.

(** Relational operators; any comparison with [NaN] is false. *)
Definition ge (a b : Number) : bool :=
  match a, b with
  | Int x, Int y => y <=? x
  | _, _ => false
  end.

Definition lt (a b : Number) : bool :=
  match a, b with
  | Int x, Int y => x <? y
  | _, _ => false
  end.

Definition gt (a b : Number) : bool := lt b a.

(** [ToBoolean] on Numbers: [0] and [NaN] are falsy. *)
Definition ToBoolean (a : Number) : bool :=
  match a with
  | NaN => false
  | Int x => negb (x =? 0)
  end.

(** [Number::toString] in radix 10, for [NaN] and for integers below
    [10^21] in magnitude (decimal digits, a leading minus sign). *)
Definition Number_toString (a : Number) : string :=
  match a with
  | NaN => "NaN"
  | Int x => NilZero.string_of_int (Z.to_int x)
  end.

(** *** Time values (ECMA-262, "Time Values and Time Range") *)

Definition HoursPerDay : Z := 24.
Definition MinutesPerHour : Z := 60.
Definition SecondsPerMinute : Z := 60.
Definition msPerSecond : Z := 1000.
Definition msPerMinute : Z := 60000.
Definition msPerHour : Z := 3600000.
Definition msPerDay : Z := 86400000.

Definition Day (t : Z) : Z := t / msPerDay.

Definition DaysInYear (y : Z) : Z :=
  if negb (y mod 4 =? 0) then 365
  else if negb (y mod 100 =? 0) then 366
  else if negb (y mod 400 =? 0) then 365
  else 366.

Definition DayFromYear (y : Z) : Z :=
  365 * (y - 1970) + (y - 1969) / 4 - (y - 1901) / 100 + (y - 1601) / 400.

Definition TimeFromYear (y : Z) : Z := msPerDay * DayFromYear y.

(** ECMA-262 defines [YearFromTime(t)] as the largest [y] with
    [TimeFromYear(y) <= t].  The mean year has 146097/400 days, which
    places that [y] within one of the estimate below. *)
Definition YearFromTime (t : Z) : Z :=
  let d := Day t in
  let y0 := 1970 + (d * 400) / 146097 in
  if DayFromYear (y0 + 1) <=? d then y0 + 1
  else if DayFromYear y0 <=? d then y0
  else y0 - 1.

Definition InLeapYear (t : Z) : Z :=
  if DaysInYear (YearFromTime t) =? 366 then 1 else 0.

Definition DayWithinYear (t : Z) : Z := Day t - DayFromYear (YearFromTime t).

Definition MonthFromTime (t : Z) : Z :=
  let d := DayWithinYear t in
  let l := InLeapYear t in
  if d <? 31 then 0
  else if d <? 59 + l then 1
  else if d <? 90 + l then 2
  else if d <? 120 + l then 3
  else if d <? 151 + l then 4
  else if d <? 181 + l then 5
  else if d <? 212 + l then 6
  else if d <? 243 + l then 7
  else if d <? 273 + l then 8
  else if d <? 304 + l then 9
  else if d <? 334 + l then 10
  else 11.

Definition DateFromTime (t : Z) : Z :=
  let d := DayWithinYear t in
  let l := InLeapYear t in
  match MonthFromTime t with
  | 0 => d + 1
  | 1 => d - 30
  | 2 => d - 58 - l
  | 3 => d - 89 - l
  | 4 => d - 119 - l
  | 5 => d - 150 - l
  | 6 => d - 180 - l
  | 7 => d - 211 - l
  | 8 => d - 242 - l
  | 9 => d - 272 - l
  | 10 => d - 303 - l
  | _ => d - 333 - l
  end.

Definition WeekDay (t : Z) : Z := (Day t + 4) mod 7.

Definition HourFromTime (t : Z) : Z := (t / msPerHour) mod HoursPerDay.
Definition MinFromTime (t : Z) : Z := (t / msPerMinute) mod MinutesPerHour.
Definition SecFromTime (t : Z) : Z := (t / msPerSecond) mod SecondsPerMinute.
Definition msFromTime (t : Z) : Z := t mod msPerSecond.

(** [MakeTime], [MakeDay], [MakeDate], [MakeFullYear], [TimeClip]. *)
Definition MakeTime (hour min sec ms : Number) : Number :=
  match hour, min, sec, ms with
  | Int h, Int m, Int s, Int milli =>
      Int (h * msPerHour + m * msPerMinute + s * msPerSecond + milli)
  | _, _, _, _ => NaN
  end.

(** Number of days from the start of a year to the start of month [mn]
    ([0..11]); [l] is 1 in a leap year. *)
Definition DaysBeforeMonth (mn l : Z) : Z :=
  match mn with
  | 0 => 0
  | 1 => 31
  | 2 => 59 + l
  | 3 => 90 + l
  | 4 => 120 + l
  | 5 => 151 + l
  | 6 => 181 + l
  | 7 => 212 + l
  | 8 => 243 + l
  | 9 => 273 + l
  | 10 => 304 + l
  | _ => 334 + l
  end.

(** [MakeDay]: the day number of the first of month [mn] of year [ym],
    plus [dt - 1].  The day number is computed for every year and month;
    a day outside the time range (100,000,000 days on either side of
    1 January 1970) is turned into [NaN] afterwards, by [TimeClip]. *)
Definition MakeDay (year month date : Number) : Number :=
  match year, month, date with
  | Int y, Int m, Int dt =>
      let ym := y + m / 12 in
      let mn := m mod 12 in
      let l := if DaysInYear ym =? 366 then 1 else 0 in
      Int (DayFromYear ym + DaysBeforeMonth mn l + dt - 1)
  | _, _, _ => NaN
  end.

Definition MakeDate (day time : Number) : Number :=
  match day, time with
  | Int d, Int t => Int (d * msPerDay + t)
  | _, _ => NaN
  end.

Definition MakeFullYear (year : Number) : Number :=
  match year with
  | NaN => NaN
  | Int y => if (0 <=? y) && (y <=? 99) then Int (1900 + y) else Int y
  end.

Definition maxTime : Z := 8640000000000000.

Definition TimeClip (time : Number) : Number :=
  match time with
  | NaN => NaN
  | Int t => if maxTime <? Z.abs t then NaN else Int t
  end.

(** *** The host environment

    ECMA-262 leaves two things to the implementation: the local time zone
    adjustment [LocalTZA(t, isUTC)] (in milliseconds) and what [Date.parse]
    does with a string that is in none of the formats the standard
    fixes. *)
Record Host : Type := mkHost {
  LocalTZA : Z -> bool -> Z;
  legacyParse : string -> Number
}.

Definition LocalTime (host : Host) (t : Z) : Z := t + LocalTZA host t true.

Definition UTC (host : Host) (t : Number) : Number :=
  match t with
  | NaN => NaN
  | Int x => Int (x - LocalTZA host x false)
  end.

(** *** Date objects: the [[DateValue]] slot *)
Record Date : Type := mkDate { DateValue : Number }.

(** [new Date(year, month, date)]. *)
Definition Date_of_ymd (host : Host) (year month date : Number) : Date :=
  let yr := MakeFullYear year in
  let finalDate :=
    MakeDate (MakeDay yr month date) (MakeTime (Int 0) (Int 0) (Int 0) (Int 0)) in
  mkDate (TimeClip (UTC host finalDate)).

(** A getter returns [NaN] on an invalid date and applies [f] to the time
    value otherwise. *)
Definition getter (f : Z -> Z) (d : Date) : Number :=
  match DateValue d with
  | NaN => NaN
  | Int t => Int (f t)
  end.

Definition getTime (d : Date) : Number := DateValue d.

Definition getFullYear (host : Host) : Date -> Number :=
  getter (fun t => YearFromTime (LocalTime host t)).

Definition getMonth (host : Host) : Date -> Number :=
  getter (fun t => MonthFromTime (LocalTime host t)).

Definition getMinutes (host : Host) : Date -> Number :=
  getter (fun t => MinFromTime (LocalTime host t)).

Definition getUTCHours : Date -> Number := getter HourFromTime.

Definition getUTCMinutes : Date -> Number := getter MinFromTime.

(** *** Strings of digits *)

Definition digit (c : ascii) : option Z :=
  let n := Z.of_nat (nat_of_ascii c) in
  if (48 <=? n) && (n <=? 57) then Some (n - 48) else None.

(** A small error monad for the scanners: [None] is "not in this format". *)
Definition bind {A B : Type} (m : option A) (k : A -> option B) : option B :=
  match m with
  | Some a => k a
  | None => None
  end.

Notation "' p <- m ;; k" := (bind m (fun p => k))
  (at level 61, p pattern, m at next level, right associativity).

Definition guard (b : bool) : option unit := if b then Some tt else None.

(** Exactly [n] decimal digits; the number read and the rest. *)
Fixpoint digits (n : nat) (acc : Z) (cs : list ascii) : option (Z * list ascii) :=
  match n, cs with
  | O, _ => Some (acc, cs)
  | S n', c :: cs' =>
      match digit c with
      | Some v => digits n' (10 * acc + v) cs'
      | None => None
      end
  | S _, [] => None
  end.

(** As many decimal digits as there are; also how many were read. *)
Fixpoint digitRun (acc : Z) (len : nat) (cs : list ascii) : Z * nat * list ascii :=
  match cs with
  | c :: cs' =>
      match digit c with
      | Some v => digitRun (10 * acc + v) (S len) cs'
      | None => (acc, len, cs)
      end
  | [] => (acc, len, cs)
  end.

(** The literal [lit] at the head of [cs]; the rest. *)
Fixpoint expect (lit cs : list ascii) : option (list ascii) :=
  match lit, cs with
  | [], _ => Some cs
  | l :: lit', c :: cs' => if Ascii.eqb l c then expect lit' cs' else None
  | _ :: _, [] => None
  end.

(** [ToZeroPaddedDecimalString(n, minLength)] for [n >= 0]. *)
Definition ToZeroPaddedDecimalString (n : Z) (minLength : nat) : string :=
  let s := NilZero.string_of_int (Z.to_int n) in
  string_of_list_ascii (repeat "0"%char (minLength - String.length s)) ++ s.

(** *** [Date.prototype.toUTCString] *)

Definition dayNames : list string :=
  ["Sun"; "Mon"; "Tue"; "Wed"; "Thu"; "Fri"; "Sat"].

Definition monthNames : list string :=
  ["Jan"; "Feb"; "Mar"; "Apr"; "May"; "Jun";
   "Jul"; "Aug"; "Sep"; "Oct"; "Nov"; "Dec"].

Definition TimeString (tv : Z) : string :=
  ToZeroPaddedDecimalString (HourFromTime tv) 2 ++ ":" ++
  ToZeroPaddedDecimalString (MinFromTime tv) 2 ++ ":" ++
  ToZeroPaddedDecimalString (SecFromTime tv) 2 ++ " GMT".

Definition toUTCString (d : Date) : string :=
  match DateValue d with
  | NaN => "Invalid Date"
  | Int tv =>
      let weekday := nth (Z.to_nat (WeekDay tv)) dayNames "" in
      let month := nth (Z.to_nat (MonthFromTime tv)) monthNames "" in
      let day := ToZeroPaddedDecimalString (DateFromTime tv) 2 in
      let yv := YearFromTime tv in
      let yearSign := if 0 <=? yv then "" else "-" in
      let paddedYear := ToZeroPaddedDecimalString (Z.abs yv) 4 in
      weekday ++ ", " ++ day ++ " " ++ month ++ " " ++ yearSign ++ paddedYear
        ++ " " ++ TimeString tv
  end.

(** *** [Date.parse]

    ECMA-262 fixes the result on two kinds of strings: those in the
    Date Time String Format (a profile of ISO 8601), and those that
    [toUTCString] produces (which is the RFC 2822 shape with the zone
    [GMT]).  Everything else is left to the implementation, which must
    answer [NaN] for what it does not recognise. *)

Definition DaysInMonth (y m : Z) : Z :=
  match m with
  | 2 => if DaysInYear y =? 366 then 29 else 28
  | 4 | 6 | 9 | 11 => 30
  | _ => 31
  end.

(** [YYYY], or a sign and six digits; [-000000] is not a year. *)
Definition isoYear (cs : list ascii) : option (Z * list ascii) :=
  match cs with
  | "+"%char :: cs' => digits 6 0 cs'
  | "-"%char :: cs' =>
      '(y, r) <- digits 6 0 cs' ;;
      if y =? 0 then None else Some (- y, r)
  | _ => digits 4 0 cs
  end.

(** [YYYY], [YYYY-MM] or [YYYY-MM-DD]. *)
Definition isoDate (cs : list ascii) : option (Z * Z * Z * list ascii) :=
  '(y, r) <- isoYear cs ;;
  match r with
  | "-"%char :: r1 =>
      '(m, r2) <- digits 2 0 r1 ;;
      match r2 with
      | "-"%char :: r3 =>
          '(d, r4) <- digits 2 0 r3 ;;
          Some (y, m, d, r4)
      | _ => Some (y, m, 1, r2)
      end
  | _ => Some (y, 1, 1, r)
  end.

(** [HH:mm], [HH:mm:ss] or [HH:mm:ss.sss]. *)
Definition isoTime (cs : list ascii) : option (Z * Z * Z * Z * list ascii) :=
  '(h, r) <- digits 2 0 cs ;;
  '(r1) <- expect [":"%char] r ;;
  '(m, r2) <- digits 2 0 r1 ;;
  match r2 with
  | ":"%char :: r3 =>
      '(s, r4) <- digits 2 0 r3 ;;
      match r4 with
      | "."%char :: r5 =>
          '(ms, r6) <- digits 3 0 r5 ;;
          Some (h, m, s, ms, r6)
      | _ => Some (h, m, s, 0, r4)
      end
  | _ => Some (h, m, 0, 0, r2)
  end.

(** The rest of the string: nothing, [Z], [+HH:mm] or [-HH:mm].  The
    offset is returned in minutes. *)
Definition isoOffset (cs : list ascii) : option (option Z) :=
  let hhmm (sign : Z) (r : list ascii) : option (option Z) :=
    '(h, r1) <- digits 2 0 r ;;
    '(r2) <- expect [":"%char] r1 ;;
    '(m, r3) <- digits 2 0 r2 ;;
    match r3 with
    | [] => if (h <=? 23) && (m <=? 59) then Some (Some (sign * (h * 60 + m)))
            else None
    | _ :: _ => None
    end in
  match cs with
  | [] => Some None
  | ["Z"%char] => Some (Some 0)
  | "+"%char :: r => hhmm 1 r
  | "-"%char :: r => hhmm (-1) r
  | _ => None
  end.

(** The Date Time String Format.  Without an offset a date-only form is
    UTC and a date-time form is local time. *)
Definition parseDateTimeString (host : Host) (s : string) : option Number :=
  '(y, m, d, r) <- isoDate (list_ascii_of_string s) ;;
  '(_) <- guard ((1 <=? m) && (m <=? 12) && (1 <=? d) && (d <=? DaysInMonth y m)) ;;
  let day := MakeDay (Int y) (Int (m - 1)) (Int d) in
  match r with
  | [] => Some (TimeClip (MakeDate day (Int 0)))
  | "T"%char :: r1 =>
      '(h, mi, sec, ms, r2) <- isoTime r1 ;;
      '(off) <- isoOffset r2 ;;
      '(_) <- guard ((h <=? 24) && (mi <=? 59) && (sec <=? 59)) ;;
      '(_) <- guard ((h <? 24) || ((mi =? 0) && (sec =? 0) && (ms =? 0))) ;;
      let date := MakeDate day (MakeTime (Int h) (Int mi) (Int sec) (Int ms)) in
      match off with
      | Some o => Some (TimeClip (sub date (Int (o * msPerMinute))))
      | None => Some (TimeClip (UTC host date))
      end
  | _ => None
  end.

(** Index of the name at the head of [cs] in a list of names. *)
Fixpoint expectName (names : list string) (i : Z) (cs : list ascii)
  : option (Z * list ascii) :=
  match names with
  | [] => None
  | n :: names' =>
      match expect (list_ascii_of_string n) cs with
      | Some r => Some (i, r)
      | None => expectName names' (i + 1) cs
      end
  end.

(** The strings [toUTCString] produces, [Www, DD Mon YYYY HH:mm:ss GMT]:
    the fields are read off, turned into a time value, and the string is
    accepted when it is what [toUTCString] prints for that value.  This
    holds from the year 100 on.  A year below 100 is not read as written
    by the engines (their parser takes [0050] for the two-digit year 50,
    that is 1950) and a negative year is not read at all, so such a
    string is in no format fixed here: it is left to [legacyParse]. *)
Definition parseUTCString (s : string) : option Number :=
  '(_, r) <- expectName dayNames 0 (list_ascii_of_string s) ;;
  '(r) <- expect [","%char; " "%char] r ;;
  '(d, r) <- digits 2 0 r ;;
  '(r) <- expect [" "%char] r ;;
  '(m, r) <- expectName monthNames 0 r ;;
  '(r) <- expect [" "%char] r ;;
  let '(y, _, r) := digitRun 0 0 r in
  '(_) <- guard (100 <=? y) ;;
  '(r) <- expect [" "%char] r ;;
  '(h, r) <- digits 2 0 r ;;
  '(r) <- expect [":"%char] r ;;
  '(mi, r) <- digits 2 0 r ;;
  '(r) <- expect [":"%char] r ;;
  '(sec, r) <- digits 2 0 r ;;
  let tv := TimeClip (MakeDate (MakeDay (Int y) (Int m) (Int d))
                               (MakeTime (Int h) (Int mi) (Int sec) (Int 0))) in
  match tv with
  | NaN => None
  | Int _ => if String.eqb (toUTCString (mkDate tv)) s then Some tv else None
  end.

Definition Date_parse (host : Host) (s : string) : Number :=
  match parseDateTimeString host s with
  | Some tv => tv
  | None =>
      match parseUTCString s with
      | Some tv => tv
      | None => legacyParse host s
      end
  end.

(** *** Doubles

    The clock-angle task leaves the integers: its Numbers are binary64
    values, with the kernel's IEEE 754 operations. *)
Module Double.
Import PrimFloat.
Local Open Scope float_scope.

Definition double : Set := float.

(** An integer-valued Number as a double (exact below 2^53). *)
Definition of_Number (a : Number) : double :=
  match a with
  | NaN => nan
  | Int z =>
      if (z <? 0)%Z then - of_uint63 (Uint63.of_Z (- z))
      else of_uint63 (Uint63.of_Z z)
  end.

(** [Math.PI], the double nearest to pi (it lies below pi). *)
Definition PI : double := 0x1.921fb54442d18p+1.

(** The exact value of a finite double, as a fraction. *)
Definition toQ (r : double) : option Q :=
  match FloatOps.Prim2SF r with
  | SpecFloat.S754_zero _ => Some (inject_Z 0)
  | SpecFloat.S754_finite s m e =>
      let n := if s then Z.neg m else Z.pos m in
      Some (if (0 <=? e)%Z then inject_Z (n * 2 ^ e)
            else Qmake n (Z.to_pos (2 ^ (- e))))
  | _ => None
  end.

End Double.

Definition Math_PI : Double.double := Double.PI.

End JS.

(* ================================================================== *)
(** ** The five functions of [src/04-date-tasks.js]                   *)
(* ================================================================== *)

Module DateTasks.
Import PrimFloat JS.

Section WithHost.

(** The engine the functions run on. *)
Variable host : Host.

(** [return Date.parse(value);] *)
Definition parseDataFromRfc2822 (value : string) : Number :=
  Date_parse host value.

(** [return Date.parse(value);] *)
Definition parseDataFromIso8601 (value : string) : Number :=
  Date_parse host value.

(** [const dateRes = new Date(date.getFullYear(), 1, 29);
     return !(dateRes.getMonth() - 1);] *)
Definition isLeapYear (date : Date) : bool :=
  let dateRes := Date_of_ymd host (getFullYear host date) (Int 1) (Int 29) in
  negb (ToBoolean (sub (getMonth host dateRes) (Int 1))).

(** The body of [timeSpanToString], constant by constant.  [resHourAbs],
    [resMinAbs] and [resSecAbs] are a Number or a string in the source;
    the template literal at the end turns the Number into its string,
    which is done here where the value is chosen. *)
Definition timeSpanToString (startDate endDate : Date) : string :=
  let time := Math_abs (sub (getTime startDate) (getTime endDate)) in
  let second := Int 1000 in
  let min := mul (Int 60) second in
  let hourAbs := Math_trunc_div time (mul (Int 60) min) in
  let minAbs :=
    Math_trunc_div (sub time (mul (mul hourAbs (Int 60)) min)) min in
  let secAbs :=
    Math_trunc_div
      (sub (sub time (mul (mul hourAbs (Int 60)) min)) (mul minAbs min))
      second in
  let milSecAbs :=
    sub (sub (sub time (mul (mul hourAbs (Int 60)) min)) (mul minAbs min))
        (mul secAbs second) in
  let resHourAbs :=
    if ge hourAbs (Int 9) then Number_toString hourAbs
    else "0" ++ Number_toString hourAbs in
  let resMinAbs :=
    if ge minAbs (Int 9) then Number_toString minAbs
    else "0" ++ Number_toString minAbs in
  let resSecAbs :=
    if ge secAbs (Int 9) then Number_toString secAbs
    else "0" ++ Number_toString secAbs in
  let resMilSecAbs :=
    if lt milSecAbs (Int 10) then "00" ++ Number_toString milSecAbs
    else if gt milSecAbs (Int 9) && lt milSecAbs (Int 100)
         then "0" ++ Number_toString milSecAbs
         else Number_toString milSecAbs in
  resHourAbs ++ ":" ++ resMinAbs ++ ":" ++ resSecAbs ++ "." ++ resMilSecAbs.

(** The body of [angleBetweenClockHands], on doubles. *)
Definition angleBetweenClockHands (date : Date) : Double.double :=
  (let hourDate := Double.of_Number (getUTCHours date) in
   let hours := if 12 <? hourDate then abs (hourDate - 12)
                else abs hourDate in
   let min := Double.of_Number (getMinutes host date) in
   let result := abs (0.5 * (60 * hours - 11 * min)) in
   let resRad := if 180 <? result then abs (360 - result) / 180
                 else result / 180 in
   resRad * Math_PI)%float.

End WithHost.

End DateTasks.

(* ================================================================== *)
(** ** The format contracts the specification states                  *)
(* ================================================================== *)

(** The date-time syntax of RFC 2822, section 3.3, which the docstring
    of [parseDataFromRfc2822] and the specification name as the input
    contract of that parser.  The recogniser takes the grammar with its
    obsolete forms ([obs-year], [obs-zone], white space around the
    tokens); comments in parentheses are not modelled.  ABNF literals
    match without regard to case. *)
Module RFC2822.
Import JS.














End RFC2822.

(** The Gregorian rule in the words of the specification, with
    JavaScript's [%] (the remainder has the sign of the dividend). *)
Definition gregorianLeap (Y : Z) : bool :=
  (Z.rem Y 4 =? 0) && (negb (Z.rem Y 100 =? 0) || (Z.rem Y 400 =? 0)).


(* ================================================================== *)
(** ** Notions used in the statements                                 *)
(* ================================================================== *)

Import PrimFloat JS DateTasks.

(** Two engines: one on UTC whose [Date.parse] knows no format beyond
    the two of the standard, and one five and a half hours east of
    Greenwich. *)
Definition utcHost : Host := mkHost (fun _ _ => 0) (fun _ => NaN).
Definition istHost : Host := mkHost (fun _ _ => 19800000) (fun _ => NaN).




(** A host whose local time is UTC plus a constant. *)
Definition fixedOffset (host : Host) (off : Z) : Prop :=
  forall t b, LocalTZA host t b = off.

(** The instant with the given UTC calendar fields (month from 1). *)
Definition utcInstant (y mo d h mi s ms : Z) : Number :=
  MakeDate (MakeDay (Int y) (Int (mo - 1)) (Int d))
           (MakeTime (Int h) (Int mi) (Int s) (Int ms)).

(** The dates of the docstring of [timeSpanToString],
    [Date(2000,1,1,h,mi,s,ms)], read on UTC. *)
Definition date2000 (h mi s ms : Z) : Date :=
  mkDate (utcInstant 2000 2 1 h mi s ms).

(** Noon of 15 June of the year 0, UTC:
    [new Date("0000-06-15T12:00:00Z")]. *)
Definition midYearZero : Date := mkDate (Int (-62152833600000)).

(** Lines 78-84 of the source: the four fields of [timeSpanToString]
    before they are printed. *)
Definition timeSpanFields (startDate endDate : Date)
  : Number * Number * Number * Number :=
  let time := Math_abs (sub (getTime startDate) (getTime endDate)) in
  let second := Int 1000 in
  let min := mul (Int 60) second in
  let hourAbs := Math_trunc_div time (mul (Int 60) min) in
  let minAbs :=
    Math_trunc_div (sub time (mul (mul hourAbs (Int 60)) min)) min in
  let secAbs :=
    Math_trunc_div
      (sub (sub time (mul (mul hourAbs (Int 60)) min)) (mul minAbs min))
      second in
  let milSecAbs :=
    sub (sub (sub time (mul (mul hourAbs (Int 60)) min)) (mul minAbs min))
        (mul secAbs second) in
  (hourAbs, minAbs, secAbs, milSecAbs).

(** Lines 85-87: [x >= 9 ? x : `0${x}`], printed. *)
Definition pad2 (x : Number) : string :=
  if ge x (Int 9) then Number_toString x else "0" ++ Number_toString x.

(** Lines 88-93: the three-way [if] on [milSecAbs], printed. *)
Definition pad3 (x : Number) : string :=
  if lt x (Int 10) then "00" ++ Number_toString x
  else if gt x (Int 9) && lt x (Int 100) then "0" ++ Number_toString x
  else Number_toString x.

(** Lines 116-120: the arithmetic of [angleBetweenClockHands] on the two
    Numbers it reads from the date. *)
Definition clockAngle (hourDate min : Double.double) : Double.double :=
  (let hours := if 12 <? hourDate then abs (hourDate - 12)
                else abs hourDate in
   let result := abs (0.5 * (60 * hours - 11 * min)) in
   let resRad := if 180 <? result then abs (360 - result) / 180
                 else result / 180 in
   resRad * Math_PI)%float.

(** A double between [0] and [Math.PI], whose exact value lies between
    0 and 3.1415926535897932 (sixteen decimals of pi, cut). *)
Definition angleInRange (r : Double.double) : bool :=
  (0 <=? r)%float && (r <=? Math_PI)%float &&
  match Double.toQ r with
  | Some q => Qle_bool 0 q && Qle_bool q 3.1415926535897932%Q
  | None => false
  end.

(** The double quotient [x / y] of two integers lies in [[k, k + 1)] for
    the integer quotient [k]: truncating it gives [k]. *)
Definition truncAgrees (x y : Z) : bool :=
  let q := (Double.of_Number (Int x) / Double.of_Number (Int y))%float in
  (Double.of_Number (Int (x / y)) <=? q)%float &&
  (q <? Double.of_Number (Int (x / y + 1)))%float.

Ltac Zify.zify_post_hook ::= Z.to_euclidean_division_equations.

(* ================================================================== *)
(** ** Properties                                                     *)
(* ================================================================== *)

(** A boolean property checked on [0 .. n-1] holds on that range. *)
Lemma forallb_range (P : Z -> bool) (n : nat) :
  forallb P (map Z.of_nat (seq 0 n)) = true ->
  forall z, 0 <= z < Z.of_nat n -> P z = true.
Proof.
  intros H z Hz. rewrite forallb_forall in H. apply H.
  apply in_map_iff. exists (Z.to_nat z). split; [lia|].
  apply in_seq. lia.
Qed.

(** *** Integer-valued doubles *)

Lemma round53_small z : Z.abs z < 2 ^ 53 -> round53 z = z.
Proof.
  intros Hz. unfold round53.
  destruct (Z.eq_dec z 0) as [->|Hnz]; [reflexivity|].
  assert (Z.log2 (Z.abs z) < 53) by (apply Z.log2_lt_pow2; lia).
  destruct (Z.leb_spec (Z.log2 (Z.abs z) - 52) 0); [reflexivity | lia].
Qed.

Lemma round53_opp z : round53 (- z) = - round53 z.
Proof.
  unfold round53. rewrite Z.abs_opp, Z.sgn_opp.
  destruct (Z.log2 (Z.abs z) - 52 <=? 0); [reflexivity | lia].
Qed.

Lemma abs_sub_comm a b : Math_abs (sub a b) = Math_abs (sub b a).
Proof.
  destruct a as [|x], b as [|y]; try reflexivity.
  cbn. f_equal. replace (y - x) with (- (x - y)) by lia.
  rewrite round53_opp. symmetry. apply Z.abs_opp.
Qed.

Lemma sub_small x y :
  Z.abs (x - y) < 2 ^ 53 -> sub (Int x) (Int y) = Int (x - y).
Proof. intros H. unfold sub, lift2. now rewrite round53_small. Qed.

Lemma mul_small x y :
  Z.abs (x * y) < 2 ^ 53 -> mul (Int x) (Int y) = Int (x * y).
Proof. intros H. unfold mul, lift2. now rewrite round53_small. Qed.

Lemma trunc_div_nonneg x y :
  0 <= x -> 0 < y -> Math_trunc_div (Int x) (Int y) = Int (x / y).
Proof.
  intros Hx Hy. unfold Math_trunc_div.
  destruct (Z.eqb_spec y 0); [lia|]. now rewrite Z.quot_div_nonneg.
Qed.

(** The integer quotient that [Math_trunc_div] returns is the truncated
    double quotient at the ends of the range of differences: just below
    a multiple of the divisor near 2^53, at the largest odd and the
    largest even difference, and at the full width of the time range. *)
Example Math_trunc_div_agrees_with_doubles :
  forallb (fun x => truncAgrees x 3600000)
    [3599999; 9007199251199999; 2 ^ 53 - 1; 2 ^ 53;
     9007199254800000 - 2; 17279999996400000 - 2;
     2 * maxTime - 2; 2 * maxTime] = true.
Proof. vm_compute. reflexivity. Qed.

(** *** [timeSpanToString] *)

Lemma timeSpanToString_unfold (a b : Date) :
  timeSpanToString a b =
    let '(hourAbs, minAbs, secAbs, milSecAbs) := timeSpanFields a b in
    pad2 hourAbs ++ ":" ++ pad2 minAbs ++ ":" ++ pad2 secAbs ++ "."
      ++ pad3 milSecAbs.
Proof. reflexivity. Qed.

(** Below 2^53 the four fields are the quotients and remainders of the
    absolute difference. *)
Lemma timeSpanFields_exact (a b : Z) :
  Z.abs (a - b) < 2 ^ 53 ->
  timeSpanFields (mkDate (Int a)) (mkDate (Int b)) =
    (Int (Z.abs (a - b) / 3600000),
     Int (Z.abs (a - b) mod 3600000 / 60000),
     Int (Z.abs (a - b) mod 60000 / 1000),
     Int (Z.abs (a - b) mod 1000)).
Proof.
  intros Hlt. unfold timeSpanFields, getTime. cbn [DateValue].
  rewrite (sub_small a b) by exact Hlt. cbn [Math_abs].
  set (D := Z.abs (a - b)) in *.
  assert (0 <= D) by (subst D; lia).
  change (mul (Int 60) (Int 1000)) with (Int 60000).
  change (mul (Int 60) (Int 60000)) with (Int 3600000).
  rewrite (trunc_div_nonneg D 3600000) by lia.
  set (h := D / 3600000).
  assert (Hh : 0 <= h * 3600000 <= D) by (subst h; lia).
  rewrite (mul_small h 60) by lia.
  rewrite (mul_small (h * 60) 60000) by lia.
  rewrite (sub_small D (h * 60 * 60000)) by lia.
  replace (D - h * 60 * 60000) with (D mod 3600000) by (subst h; lia).
  assert (HD : 0 <= D mod 3600000 < 3600000) by lia.
  rewrite (trunc_div_nonneg (D mod 3600000) 60000) by lia.
  set (m := D mod 3600000 / 60000).
  assert (Hm : 0 <= m * 60000 <= D mod 3600000) by (subst m; lia).
  rewrite (mul_small m 60000) by lia.
  rewrite (sub_small (D mod 3600000) (m * 60000)) by lia.
  replace (D mod 3600000 - m * 60000) with (D mod 60000) by (subst m; lia).
  assert (HD' : 0 <= D mod 60000 < 60000) by lia.
  rewrite (trunc_div_nonneg (D mod 60000) 1000) by lia.
  set (s := D mod 60000 / 1000).
  assert (Hs : 0 <= s * 1000 <= D mod 60000) by (subst s; lia).
  rewrite (mul_small s 1000) by lia.
  rewrite (sub_small (D mod 60000) (s * 1000)) by lia.
  replace (D mod 60000 - s * 1000) with (D mod 1000) by (subst s; lia).
  reflexivity.
Qed.

(** What [pad2] prints: two characters for every field value below 100
    except 9, which the test [x >= 9] leaves without its zero. *)
Lemma pad2_width (n : Z) :
  0 <= n < 100 -> n <> 9 -> String.length (pad2 (Int n)) = 2%nat.
Proof.
  intros Hn H9.
  pose (P := fun z => (z =? 9) || Nat.eqb (String.length (pad2 (Int z))) 2).
  assert (HP : P n = true).
  { apply (forallb_range P 100); [vm_compute; reflexivity | lia]. }
  unfold P in HP. apply orb_true_iff in HP. destruct HP as [HP|HP].
  - apply Z.eqb_eq in HP. contradiction.
  - now apply Nat.eqb_eq.
Qed.

Lemma pad2_nine : pad2 (Int 9) = "9".
Proof. reflexivity. Qed.

(** The milliseconds field has three characters throughout its range. *)
Lemma pad3_width (n : Z) :
  0 <= n < 1000 -> String.length (pad3 (Int n)) = 3%nat.
Proof.
  intros Hn.
  pose (P := fun z => Nat.eqb (String.length (pad3 (Int z))) 3).
  assert (HP : P n = true).
  { apply (forallb_range P 1000); [vm_compute; reflexivity | lia]. }
  now apply Nat.eqb_eq.
Qed.

(** The examples of the docstring. *)
Example timeSpanToString_docstring :
  timeSpanToString (date2000 10 0 0 0) (date2000 11 0 0 0) = "01:00:00.000" /\
  timeSpanToString (date2000 10 0 0 0) (date2000 10 30 0 0) = "00:30:00.000" /\
  timeSpanToString (date2000 10 0 0 0) (date2000 10 0 20 0) = "00:00:20.000" /\
  timeSpanToString (date2000 10 0 0 0) (date2000 10 0 0 250) = "00:00:00.250" /\
  timeSpanToString (date2000 10 0 0 0) (date2000 15 20 10 453) = "05:20:10.453".
Proof. repeat split; vm_compute; reflexivity. Qed.

(** The hours are not capped: a hundred hours are printed with three
    digits. *)
Example timeSpanToString_hundred_hours :
  timeSpanToString (date2000 0 0 0 0) (date2000 100 0 0 0) = "100:00:00.000".
Proof. vm_compute. reflexivity. Qed.

(** C1. The hours, minutes and seconds fields are to be zero-padded to
    width 2.  The code tests [x >= 9] where it needs [x >= 10]: a field
    whose value is 9 is printed as the single character ["9"].  Nine
    hours, nine minutes and nine seconds after 10:00:00 the results are
    ["9:00:00.000"], ["00:9:00.000"] and ["00:00:9.000"]. *)
Theorem timeSpanToString_nine_unpadded :
  timeSpanToString (date2000 10 0 0 0) (date2000 19 0 0 0) = "9:00:00.000" /\
  timeSpanToString (date2000 10 0 0 0) (date2000 10 9 0 0) = "00:9:00.000" /\
  timeSpanToString (date2000 10 0 0 0) (date2000 10 0 9 0) = "00:00:9.000".
Proof. repeat split; vm_compute; reflexivity. Qed.

(** C5. The time span does not depend on the order of its two dates:
    [timeSpanToString a b = timeSpanToString b a], valid or not. *)
Theorem timeSpanToString_symmetric (a b : Date) :
  timeSpanToString a b = timeSpanToString b a.
Proof.
  rewrite !timeSpanToString_unfold. unfold timeSpanFields.
  rewrite (abs_sub_comm (getTime a) (getTime b)). reflexivity.
Qed.

(** C6. For every instant [t], the span from [t] to [t] is printed as
    ["00:00:00.000"]. *)
Theorem timeSpanToString_zero (t : Z) :
  timeSpanToString (mkDate (Int t)) (mkDate (Int t)) = "00:00:00.000".
Proof.
  rewrite timeSpanToString_unfold, timeSpanFields_exact;
    rewrite Z.sub_diag; [reflexivity | reflexivity].
Qed.

(** *** The two parsers *)

(** C10. The two parsers are the same function of the host and the
    string: on every input they return the same Number. *)
Theorem parsers_extensionally_equal (host : Host) (value : string) :
  parseDataFromRfc2822 host value = parseDataFromIso8601 host value.
Proof. reflexivity. Qed.

(** C9. On every host, ["Tue, 26 Jan 2016 13:48:02 GMT"] is parsed to
    the instant 2016-01-26T13:48:02Z and ["2016-01-19T08:07:37Z"] to the
    instant 2016-01-19T08:07:37Z (the time values 1453816082000 and
    1453190857000). *)
Theorem parsers_examples (host : Host) :
  parseDataFromRfc2822 host "Tue, 26 Jan 2016 13:48:02 GMT"
    = utcInstant 2016 1 26 13 48 2 0 /\
  utcInstant 2016 1 26 13 48 2 0 = Int 1453816082000 /\
  parseDataFromIso8601 host "2016-01-19T08:07:37Z"
    = utcInstant 2016 1 19 8 7 37 0 /\
  utcInstant 2016 1 19 8 7 37 0 = Int 1453190857000.
Proof. repeat split; vm_compute; reflexivity. Qed.

(** The remaining examples of the two docstrings that the standard
    decides; ['December 17, 1995 03:24:00'] and
    ['Sun, 17 May 1998 03:00:00 GMT+01'] are left to the host. *)
Example parsers_docstring (host : Host) :
  parseDataFromIso8601 host "2016-01-19T16:07:37+00:00"
    = utcInstant 2016 1 19 16 7 37 0 /\
  parseDataFromRfc2822 host "December 17, 1995 03:24:00"
    = legacyParse host "December 17, 1995 03:24:00" /\
  parseDataFromRfc2822 host "Sun, 17 May 1998 03:00:00 GMT+01"
    = legacyParse host "Sun, 17 May 1998 03:00:00 GMT+01".
Proof. repeat split; vm_compute; reflexivity. Qed.

















(** *** The calendar of ECMA-262 *)

Lemma DayFromYear_succ y : DayFromYear (y + 1) = DayFromYear y + DaysInYear y.
Proof.
  unfold DayFromYear, DaysInYear.
  destruct (Z.eqb_spec (y mod 4) 0), (Z.eqb_spec (y mod 100) 0),
    (Z.eqb_spec (y mod 400) 0); cbn [negb]; lia.
Qed.

Lemma DayFromYear_mono y y' : y <= y' -> DayFromYear y <= DayFromYear y'.
Proof. unfold DayFromYear. lia. Qed.

Lemma DaysInYear_bounds y : 365 <= DaysInYear y <= 366.
Proof.
  unfold DaysInYear.
  destruct (y mod 4 =? 0), (y mod 100 =? 0), (y mod 400 =? 0); cbn; lia.
Qed.

(** [DaysInYear] is the Gregorian rule. *)
Lemma DaysInYear_gregorian y : (DaysInYear y =? 366) = gregorianLeap y.
Proof.
  unfold DaysInYear, gregorianLeap.
  destruct (Z.eqb_spec (y mod 4) 0), (Z.eqb_spec (y mod 100) 0),
    (Z.eqb_spec (y mod 400) 0), (Z.eqb_spec (Z.rem y 4) 0),
    (Z.eqb_spec (Z.rem y 100) 0), (Z.eqb_spec (Z.rem y 400) 0);
    cbn; try reflexivity; lia.
Qed.

(** The executable [YearFromTime] is the one ECMA-262 describes: the
    year whose first instant is the last one not after [t]. *)
Lemma YearFromTime_spec t :
  TimeFromYear (YearFromTime t) <= t < TimeFromYear (YearFromTime t + 1).
Proof.
  unfold YearFromTime, TimeFromYear, Day, msPerDay.
  set (d := t / 86400000).
  set (y0 := 1970 + d * 400 / 146097).
  assert (Hd : 86400000 * d <= t < 86400000 * (d + 1)) by (subst d; lia).
  assert (H1 : DayFromYear (y0 - 1) <= d)
    by (subst y0; unfold DayFromYear; lia).
  assert (H2 : d < DayFromYear (y0 + 2))
    by (subst y0; unfold DayFromYear; lia).
  destruct (Z.leb_spec (DayFromYear (y0 + 1)) d).
  - replace (y0 + 1 + 1) with (y0 + 2) by lia. lia.
  - destruct (Z.leb_spec (DayFromYear y0) d).
    + lia.
    + replace (y0 - 1 + 1) with y0 by lia. lia.
Qed.

Lemma YearFromTime_unique t y :
  DayFromYear y <= Day t < DayFromYear (y + 1) -> YearFromTime t = y.
Proof.
  intros [Hlo Hhi].
  pose proof (YearFromTime_spec t) as [Slo Shi].
  set (Y := YearFromTime t) in *.
  unfold TimeFromYear in *.
  assert (Dlo : DayFromYear Y <= Day t) by (unfold Day, msPerDay in *; lia).
  assert (Dhi : Day t < DayFromYear (Y + 1))
    by (unfold Day, msPerDay in *; lia).
  destruct (Z.lt_trichotomy Y y) as [Hlt|[Heq|Hgt]]; [|exact Heq|].
  - pose proof (DayFromYear_mono (Y + 1) y ltac:(lia)). lia.
  - pose proof (DayFromYear_mono (y + 1) Y ltac:(lia)). lia.
Qed.

(** The 60th day of a year is February 29 in a leap year and March 1
    otherwise. *)
Lemma MonthFromTime_feb29 yr :
  MonthFromTime ((DayFromYear yr + 59) * msPerDay) =
    if DaysInYear yr =? 366 then 1 else 2.
Proof.
  assert (HD : Day ((DayFromYear yr + 59) * msPerDay) = DayFromYear yr + 59).
  { unfold Day, msPerDay. lia. }
  assert (HY : YearFromTime ((DayFromYear yr + 59) * msPerDay) = yr).
  { apply YearFromTime_unique. rewrite HD, DayFromYear_succ.
    pose proof (DaysInYear_bounds yr). lia. }
  unfold MonthFromTime, DayWithinYear, InLeapYear. rewrite HD, HY.
  replace (DayFromYear yr + 59 - DayFromYear yr) with 59 by lia.
  destruct (DaysInYear yr =? 366); reflexivity.
Qed.

(** *** [isLeapYear] *)

(** The dates of the docstring, [Date(Y,1,1)], on a host on UTC. *)
Example isLeapYear_docstring :
  map (fun Y => isLeapYear utcHost (Date_of_ymd utcHost (Int Y) (Int 1) (Int 1)))
      [1900; 2000; 2001; 2012; 2015]
  = [false; true; false; true; false].
Proof. vm_compute. reflexivity. Qed.

(** C2. [isLeapYear] is to follow the Gregorian rule on the year of its
    date.  For a date in the year 0 it does not: [getFullYear] returns 0,
    the constructor [new Date(0, 1, 29)] reads the year 0 as 1900, and
    1900 is not a leap year while 0 is.  On a host on UTC, for noon of
    15 June 0000, the rule says [true] and [isLeapYear] returns
    [false]. *)
Theorem isLeapYear_year_zero :
  Date_parse utcHost "0000-06-15T12:00:00Z" = DateValue midYearZero /\
  getFullYear utcHost midYearZero = Int 0 /\
  gregorianLeap 0 = true /\
  isLeapYear utcHost midYearZero = false.
Proof. repeat split; vm_compute; reflexivity. Qed.

(** The same function at the first instant of the time range (20 April
    of the year -271821): February of that year is out of range, the
    constructed date is invalid, [getMonth] is [NaN], and the answer is
    [true] for a year that is not a leap year. *)
Example isLeapYear_first_year :
  getFullYear utcHost (mkDate (Int (- maxTime))) = Int (-271821) /\
  gregorianLeap (-271821) = false /\
  isLeapYear utcHost (mkDate (Int (- maxTime))) = true.
Proof. repeat split; vm_compute; reflexivity. Qed.

Lemma gregorianLeap_two_digit Y :
  0 < Y <= 99 -> gregorianLeap (1900 + Y) = gregorianLeap Y.
Proof.
  intros HY.
  pose (P := fun z =>
         (z =? 0) || Bool.eqb (gregorianLeap (1900 + z)) (gregorianLeap z)).
  assert (HP : P Y = true).
  { apply (forallb_range P 100); [vm_compute; reflexivity | lia]. }
  unfold P in HP. apply orb_true_iff in HP. destruct HP as [HP|HP].
  - apply Z.eqb_eq in HP. lia.
  - now apply Bool.eqb_prop.
Qed.

(** Where [isLeapYear] does follow the Gregorian rule: on a host with a
    constant offset, for every date whose local year is not 0 and lies
    after the first year of the time range. *)
Lemma isLeapYear_gregorian host off d Y :
  fixedOffset host off -> Z.abs off <= msPerDay ->
  getFullYear host d = Int Y ->
  Y <> 0 -> -271821 < Y <= 275760 ->
  isLeapYear host d = gregorianLeap Y.
Proof.
  intros Hoff Habs HY Hnz Hrange.
  unfold isLeapYear. rewrite HY.
  set (yr := if (0 <=? Y) && (Y <=? 99) then 1900 + Y else Y).
  assert (Hyr : -271821 < yr <= 275760).
  { subst yr. destruct (Z.leb_spec 0 Y), (Z.leb_spec Y 99); cbn [andb]; lia. }
  assert (Hg : gregorianLeap yr = gregorianLeap Y).
  { subst yr.
    destruct (Z.leb_spec 0 Y), (Z.leb_spec Y 99); cbn [andb]; try reflexivity.
    apply gregorianLeap_two_digit. lia. }
  set (x := (DayFromYear yr + 59) * msPerDay).
  assert (Hnew : Date_of_ymd host (Int Y) (Int 1) (Int 29) = mkDate (Int (x - off))).
  { unfold Date_of_ymd, MakeFullYear. fold yr.
    replace (if (0 <=? Y) && (Y <=? 99) then Int (1900 + Y) else Int Y)
      with (Int yr)
      by (subst yr; destruct ((0 <=? Y) && (Y <=? 99)); reflexivity).
    unfold MakeDay. change (1 / 12) with 0. change (1 mod 12) with 1.
    rewrite Z.add_0_r. cbn [DaysBeforeMonth].
    cbn [MakeTime MakeDate UTC].
    rewrite (Hoff _ false).
    replace ((DayFromYear yr + 31 + 29 - 1) * msPerDay
             + (0 * msPerHour + 0 * msPerMinute + 0 * msPerSecond + 0)) with x
      by (subst x; unfold msPerDay, msPerHour, msPerMinute, msPerSecond; lia).
    unfold TimeClip.
    assert (Z.abs (x - off) <= maxTime).
    { subst x. unfold maxTime, msPerDay, DayFromYear in *. lia. }
    destruct (Z.ltb_spec maxTime (Z.abs (x - off))); [lia | reflexivity]. }
  rewrite Hnew. unfold getMonth, getter. cbn [DateValue].
  unfold LocalTime. rewrite (Hoff _ true).
  replace (x - off + off) with x by lia. subst x.
  rewrite MonthFromTime_feb29, <- Hg, <- DaysInYear_gregorian.
  destruct (DaysInYear yr =? 366); reflexivity.
Qed.

(** 15 June 2016, on the host five and a half hours ahead of UTC. *)
Lemma isLeapYear_gregorian_witness :
  isLeapYear istHost (mkDate (utcInstant 2016 6 15 0 0 0 0)) = true.
Proof.
  apply (isLeapYear_gregorian istHost 19800000 _ 2016);
    [intros t b; reflexivity | unfold msPerDay; lia | reflexivity | lia | lia].
Defined.

(** *** [angleBetweenClockHands] *)

Lemma angleBetweenClockHands_unfold (host : Host) (d : Date) :
  angleBetweenClockHands host d =
    clockAngle (Double.of_Number (getUTCHours d))
               (Double.of_Number (getMinutes host d)).
Proof. reflexivity. Qed.

Lemma HourFromTime_range t : 0 <= HourFromTime t < 24.
Proof. unfold HourFromTime, HoursPerDay. apply Z.mod_pos_bound. lia. Qed.

Lemma MinFromTime_range t : 0 <= MinFromTime t < 60.
Proof. unfold MinFromTime, MinutesPerHour. apply Z.mod_pos_bound. lia. Qed.

(** The 24 x 60 pairs of an hour and a minute, one by one. *)
Lemma clockAngle_range (h m : Z) :
  0 <= h < 24 -> 0 <= m < 60 ->
  angleInRange (clockAngle (Double.of_Number (Int h)) (Double.of_Number (Int m)))
  = true.
Proof.
  intros Hh Hm.
  pose (Q := fun h m =>
         angleInRange (clockAngle (Double.of_Number (Int h))
                                  (Double.of_Number (Int m)))).
  pose (P := fun h => forallb (Q h) (map Z.of_nat (seq 0 60))).
  assert (HP : P h = true).
  { apply (forallb_range P 24); [vm_compute; reflexivity | lia]. }
  apply (forallb_range (Q h) 60 HP). lia.
Qed.

Lemma angleInRange_spec (r : Double.double) :
  angleInRange r = true ->
  (0 <=? r)%float = true /\ (r <=? Math_PI)%float = true /\
  exists q : Q, Double.toQ r = Some q /\ (0 <= q <= 3.1415926535897932)%Q.
Proof.
  unfold angleInRange. intros H.
  apply andb_true_iff in H. destruct H as [H Hq].
  apply andb_true_iff in H. destruct H as [H0 Hpi].
  split; [exact H0 | split; [exact Hpi |]].
  destruct (Double.toQ r) as [q|]; [|discriminate].
  exists q. split; [reflexivity|].
  apply andb_true_iff in Hq. destruct Hq as [Hlo Hhi].
  split; now apply Qle_bool_iff.
Qed.

(** C3. For every instant [t], on every host, the angle is a double
    [r] with [0 <= r <= Math.PI].  [Math.PI] lies just below pi: the
    exact value of [r] is between 0 and 3.1415926535897932, hence in
    [[0, pi]]. *)
Theorem angleBetweenClockHands_range (host : Host) (t : Z) :
  let r := angleBetweenClockHands host (mkDate (Int t)) in
  (0 <=? r)%float = true /\ (r <=? Math_PI)%float = true /\
  exists q : Q, Double.toQ r = Some q /\ (0 <= q <= 3.1415926535897932)%Q.
Proof.
  cbv zeta. apply angleInRange_spec.
  rewrite angleBetweenClockHands_unfold.
  unfold getUTCHours, getMinutes, getter. cbn [DateValue].
  apply clockAngle_range; [apply HourFromTime_range | apply MinFromTime_range].
Qed.

(** C4. With the UTC hour [h] and the minute [0] (the minute the
    function reads, [getMinutes]), the angle is [0] for [h = 0],
    [Math.PI / 2] for [h = 3], [Math.PI] for [h = 18] and
    [Math.PI / 2] for [h = 21]. *)
Theorem angleBetweenClockHands_examples (host : Host) (d : Date) (h : Z) :
  getUTCHours d = Int h ->
  getMinutes host d = Int 0 ->
  (h = 0 -> angleBetweenClockHands host d = 0%float) /\
  (h = 3 -> angleBetweenClockHands host d = (Math_PI / 2)%float) /\
  (h = 18 -> angleBetweenClockHands host d = Math_PI) /\
  (h = 21 -> angleBetweenClockHands host d = (Math_PI / 2)%float).
Proof.
  intros Hh Hm. rewrite angleBetweenClockHands_unfold, Hh, Hm.
  repeat split; intros ->; vm_compute; reflexivity.
Qed.

(** The dates of the docstring: [Date.UTC(2016,2,5,0,0)],
    [Date.UTC(2016,3,5,3,0)], [Date.UTC(2016,3,5,18,0)] and
    [Date.UTC(2016,3,5,21,0)]. *)
Lemma angleBetweenClockHands_examples_witness :
  angleBetweenClockHands utcHost (mkDate (utcInstant 2016 3 5 0 0 0 0))
    = 0%float /\
  angleBetweenClockHands utcHost (mkDate (utcInstant 2016 4 5 3 0 0 0))
    = (Math_PI / 2)%float /\
  angleBetweenClockHands utcHost (mkDate (utcInstant 2016 4 5 18 0 0 0))
    = Math_PI /\
  angleBetweenClockHands utcHost (mkDate (utcInstant 2016 4 5 21 0 0 0))
    = (Math_PI / 2)%float.
Proof.
  split; [|split; [|split]].
  - refine (proj1 (angleBetweenClockHands_examples utcHost _ 0 _ _) eq_refl);
      reflexivity.
  - refine (proj1 (proj2 (angleBetweenClockHands_examples utcHost _ 3 _ _))
                  eq_refl);
      reflexivity.
  - refine (proj1 (proj2 (proj2
              (angleBetweenClockHands_examples utcHost _ 18 _ _))) eq_refl);
      reflexivity.
  - refine (proj2 (proj2 (proj2
              (angleBetweenClockHands_examples utcHost _ 21 _ _))) eq_refl);
      reflexivity.
Defined.

(** C8. The angle is a function of the UTC hour and the local minute
    alone: two dates, each on its host, with the same [getUTCHours] and
    the same [getMinutes] have the same angle. *)
Theorem angleBetweenClockHands_reads_hour_and_minute
    (host1 host2 : Host) (d1 d2 : Date) :
  getUTCHours d1 = getUTCHours d2 ->
  getMinutes host1 d1 = getMinutes host2 d2 ->
  angleBetweenClockHands host1 d1 = angleBetweenClockHands host2 d2.
Proof.
  intros Hh Hm. rewrite !angleBetweenClockHands_unfold. now rewrite Hh, Hm.
Qed.

(** 03:30:15 UTC on a host on UTC and 03:00:00 UTC a day later on a host
    five and a half hours ahead: UTC hour 3 and local minute 30 in both
    cases. *)
Lemma angleBetweenClockHands_reads_hour_and_minute_witness :
  angleBetweenClockHands utcHost (mkDate (utcInstant 2016 4 5 3 30 15 0))
  = angleBetweenClockHands istHost (mkDate (utcInstant 2016 4 6 3 0 0 0)).
Proof.
  apply angleBetweenClockHands_reads_hour_and_minute; reflexivity.
Defined.

(** The minute is the local one: at 03:00 UTC the host five and a half
    hours ahead reads minute 30, and the angle is not [Math.PI / 2]. *)
Example angleBetweenClockHands_local_minute :
  getUTCHours (mkDate (utcInstant 2016 4 5 3 0 0 0)) = Int 3 /\
  getUTCMinutes (mkDate (utcInstant 2016 4 5 3 0 0 0)) = Int 0 /\
  getMinutes istHost (mkDate (utcInstant 2016 4 5 3 0 0 0)) = Int 30 /\
  angleBetweenClockHands istHost (mkDate (utcInstant 2016 4 5 3 0 0 0))
    = (75 / 180 * Math_PI)%float.
Proof. repeat split; vm_compute; reflexivity. Qed.

(* ================================================================== *)
(** ** Further notions                                                *)
(* ================================================================== *)

From Stdlib Require DecimalFacts DecimalPos.

(** The format ["HH:mm:ss.sss"] of the docstring of [timeSpanToString],
    for a span of [ms] milliseconds: every field zero-padded. *)
Definition formatSpan (ms : Z) : string :=
  ToZeroPaddedDecimalString (ms / 3600000) 2 ++ ":" ++
  ToZeroPaddedDecimalString (ms mod 3600000 / 60000) 2 ++ ":" ++
  ToZeroPaddedDecimalString (ms mod 60000 / 1000) 2 ++ "." ++
  ToZeroPaddedDecimalString (ms mod 1000) 3.

(** How many of the three fields are 9. *)
Definition nines (ms : Z) : nat :=
  Nat.add
    (Nat.add (if ms / 3600000 =? 9 then 1%nat else 0%nat)
             (if ms mod 3600000 / 60000 =? 9 then 1%nat else 0%nat))
    (if ms mod 60000 / 1000 =? 9 then 1%nat else 0%nat).

(** The hands of the clock in half degrees, clockwise from twelve: the
    hour hand moves 60 per hour and 1 per minute, the minute hand 12 per
    minute. *)
Definition hourHand (h m : Z) : Z := (60 * h + m) mod 720.
Definition minuteHand (m : Z) : Z := 12 * m.

(** The smaller of the two angles between the hands, in half degrees. *)
Definition handsApart (h m : Z) : Z :=
  let d := Z.abs (hourHand h m - minuteHand m) in
  Z.min d (720 - d).

(** Half degrees to radians, as the source converts: halve, divide by
    180, multiply by [Math.PI]. *)
Definition radians (halfDegrees : Z) : Double.double :=
  (0.5 * Double.of_Number (Int halfDegrees) / 180 * Math_PI)%float.

(** A host that reads a local midnight back on its own day: the local
    time of the instant that [UTC] gives for the midnight [x] is [x] or,
    where the clocks skip that midnight, later on the same day; and no
    offset exceeds a day. *)
Definition keepsMidnights (host : Host) : Prop :=
  forall day : Z,
    let x := day * msPerDay in
    Z.abs (LocalTZA host x false) <= msPerDay /\
    0 <= LocalTime host (x - LocalTZA host x false) - x < msPerDay.

(** A host with daylight saving time: on UTC until the clocks are set
    forward by an hour at the midnight that begins 29 February 2016. *)
Definition dstHost : Host :=
  mkHost (fun t isUTC =>
            if isUTC then (if 1456704000000 <=? t then 3600000 else 0)
            else (if 1456707600000 <=? t then 3600000 else 0))
         (fun _ => NaN).

(** The characters of [ToZeroPaddedDecimalString n w]. *)
Definition padded (n : Z) (w : nat) : list ascii :=
  list_ascii_of_string (ToZeroPaddedDecimalString n w).

(** The number that the digits [d] continue from [acc], read from the
    left. *)
Fixpoint valueAcc (d : Decimal.uint) (acc : Z) : Z :=
  match d with
  | Decimal.Nil => acc
  | Decimal.D0 l => valueAcc l (10 * acc + 0)
  | Decimal.D1 l => valueAcc l (10 * acc + 1)
  | Decimal.D2 l => valueAcc l (10 * acc + 2)
  | Decimal.D3 l => valueAcc l (10 * acc + 3)
  | Decimal.D4 l => valueAcc l (10 * acc + 4)
  | Decimal.D5 l => valueAcc l (10 * acc + 5)
  | Decimal.D6 l => valueAcc l (10 * acc + 6)
  | Decimal.D7 l => valueAcc l (10 * acc + 7)
  | Decimal.D8 l => valueAcc l (10 * acc + 8)
  | Decimal.D9 l => valueAcc l (10 * acc + 9)
  end.

(** The characters of a string of decimal digits. *)
Definition uchars (d : Decimal.uint) : list ascii :=
  list_ascii_of_string (NilEmpty.string_of_uint d).

(** The decimal digits of a number that is not negative. *)
Definition udigits (n : Z) : Decimal.uint :=
  match n with
  | Z.pos p => Pos.to_uint p
  | _ => Decimal.D0 Decimal.Nil
  end.

(** [Date.prototype.toISOString]: the Date Time String Format on UTC
    with every field and the offset [Z]; a year outside 0..9999 is
    written with a sign and six digits.  [None] stands for the
    RangeError on an invalid date. *)
Definition toISOString (d : Date) : option string :=
  match DateValue d with
  | NaN => None
  | Int tv =>
      let yv := YearFromTime tv in
      let year :=
        if (0 <=? yv) && (yv <=? 9999) then ToZeroPaddedDecimalString yv 4
        else (if 0 <=? yv then "+" else "-")
               ++ ToZeroPaddedDecimalString (Z.abs yv) 6 in
      Some (year
            ++ "-" ++ ToZeroPaddedDecimalString (MonthFromTime tv + 1) 2
            ++ "-" ++ ToZeroPaddedDecimalString (DateFromTime tv) 2
            ++ "T" ++ ToZeroPaddedDecimalString (HourFromTime tv) 2
            ++ ":" ++ ToZeroPaddedDecimalString (MinFromTime tv) 2
            ++ ":" ++ ToZeroPaddedDecimalString (SecFromTime tv) 2
            ++ "." ++ ToZeroPaddedDecimalString (msFromTime tv) 3
            ++ "Z")
  end.

(** Calendar fields that name a day and a time of day, in the years
    that the Date Time String Format writes with four digits. *)
Definition validFields (y mo d h mi s : Z) : Prop :=
  0 <= y <= 9999 /\ 1 <= mo <= 12 /\ 1 <= d <= DaysInMonth y mo /\
  0 <= h < 24 /\ 0 <= mi < 60 /\ 0 <= s < 60.

(** [YYYY-MM-DD] and [YYYY-MM-DDTHH:mm:ss]. *)
Definition isoDateString (y mo d : Z) : string :=
  ToZeroPaddedDecimalString y 4 ++ "-" ++ ToZeroPaddedDecimalString mo 2
    ++ "-" ++ ToZeroPaddedDecimalString d 2.

Definition isoDateTimeString (y mo d h mi s : Z) : string :=
  isoDateString y mo d ++ "T" ++ ToZeroPaddedDecimalString h 2
    ++ ":" ++ ToZeroPaddedDecimalString mi 2
    ++ ":" ++ ToZeroPaddedDecimalString s 2.

(** [+HH:mm] or [-HH:mm] for an offset of [off] minutes. *)
Definition isoOffsetString (off : Z) : string :=
  (if 0 <=? off then "+" else "-")
    ++ ToZeroPaddedDecimalString (Z.abs off / 60) 2
    ++ ":" ++ ToZeroPaddedDecimalString (Z.abs off mod 60) 2.

(* ================================================================== *)
(** ** Further properties                                             *)
(* ================================================================== *)

(** *** [timeSpanToString], further *)

Lemma length_append (s1 s2 : string) :
  String.length (s1 ++ s2) = (String.length s1 + String.length s2)%nat.
Proof. induction s1 as [|c s1 IH]; cbn; [reflexivity | now rewrite IH]. Qed.

(** X1. The four fields are the hours, minutes, seconds and milliseconds
    of the absolute difference: in range, and adding up to it. *)
Theorem timeSpanToString_fields (a b : Z) :
  Z.abs (a - b) < 2 ^ 53 ->
  exists h m s ms : Z,
    0 <= h /\ 0 <= m < 60 /\ 0 <= s < 60 /\ 0 <= ms < 1000 /\
    h * 3600000 + m * 60000 + s * 1000 + ms = Z.abs (a - b) /\
    timeSpanToString (mkDate (Int a)) (mkDate (Int b)) =
      pad2 (Int h) ++ ":" ++ pad2 (Int m) ++ ":" ++ pad2 (Int s) ++ "."
        ++ pad3 (Int ms).
Proof.
  intros Hlt. set (D := Z.abs (a - b)) in *.
  exists (D / 3600000), (D mod 3600000 / 60000), (D mod 60000 / 1000),
         (D mod 1000).
  assert (0 <= D) by (subst D; lia).
  repeat (split; [lia|]).
  rewrite timeSpanToString_unfold, timeSpanFields_exact by exact Hlt.
  reflexivity.
Qed.

Lemma timeSpanToString_fields_witness :
  exists h m s ms : Z,
    0 <= h /\ 0 <= m < 60 /\ 0 <= s < 60 /\ 0 <= ms < 1000 /\
    h * 3600000 + m * 60000 + s * 1000 + ms = Z.abs (0 - 19210453) /\
    timeSpanToString (mkDate (Int 0)) (mkDate (Int 19210453)) =
      pad2 (Int h) ++ ":" ++ pad2 (Int m) ++ ":" ++ pad2 (Int s) ++ "."
        ++ pad3 (Int ms).
Proof. apply (timeSpanToString_fields 0 19210453). reflexivity. Defined.

Lemma pad2_padded (n : Z) :
  0 <= n < 100 ->
  pad2 (Int n) = if n =? 9 then "9" else ToZeroPaddedDecimalString n 2.
Proof.
  intros Hn.
  pose (P := fun z => String.eqb (pad2 (Int z))
                        (if z =? 9 then "9" else ToZeroPaddedDecimalString z 2)).
  assert (HP : P n = true).
  { apply (forallb_range P 100); [vm_compute; reflexivity | lia]. }
  now apply String.eqb_eq.
Qed.

Lemma pad3_padded (n : Z) :
  0 <= n < 1000 -> pad3 (Int n) = ToZeroPaddedDecimalString n 3.
Proof.
  intros Hn.
  pose (P := fun z => String.eqb (pad3 (Int z)) (ToZeroPaddedDecimalString z 3)).
  assert (HP : P n = true).
  { apply (forallb_range P 1000); [vm_compute; reflexivity | lia]. }
  now apply String.eqb_eq.
Qed.

Lemma padded2_length (n : Z) :
  0 <= n < 100 -> String.length (ToZeroPaddedDecimalString n 2) = 2%nat.
Proof.
  intros Hn.
  pose (P := fun z => Nat.eqb (String.length (ToZeroPaddedDecimalString z 2)) 2).
  assert (HP : P n = true).
  { apply (forallb_range P 100); [vm_compute; reflexivity | lia]. }
  now apply Nat.eqb_eq.
Qed.

Lemma padded3_length (n : Z) :
  0 <= n < 1000 -> String.length (ToZeroPaddedDecimalString n 3) = 3%nat.
Proof.
  intros Hn.
  pose (P := fun z => Nat.eqb (String.length (ToZeroPaddedDecimalString z 3)) 3).
  assert (HP : P n = true).
  { apply (forallb_range P 1000); [vm_compute; reflexivity | lia]. }
  now apply Nat.eqb_eq.
Qed.

Lemma pad2_length (n : Z) :
  0 <= n < 100 ->
  String.length (pad2 (Int n)) = if n =? 9 then 1%nat else 2%nat.
Proof.
  intros Hn. rewrite pad2_padded by exact Hn.
  destruct (n =? 9); [reflexivity | now apply padded2_length].
Qed.

Lemma span_length (a b : Z) :
  Z.abs (a - b) < 360000000 ->
  String.length (timeSpanToString (mkDate (Int a)) (mkDate (Int b)))
  = (12 - nines (Z.abs (a - b)))%nat.
Proof.
  intros Hlt. set (D := Z.abs (a - b)) in *.
  assert (0 <= D) by (subst D; lia).
  rewrite timeSpanToString_unfold, timeSpanFields_exact by (fold D; lia).
  fold D. cbv beta iota.
  rewrite !length_append, !pad2_length, pad3_width by lia.
  unfold nines.
  destruct (D / 3600000 =? 9), (D mod 3600000 / 60000 =? 9),
    (D mod 60000 / 1000 =? 9); reflexivity.
Qed.

(** X3. Under a hundred hours the result has twelve characters less one
    for every field among hours, minutes and seconds that is 9. *)
Theorem timeSpanToString_length (a b : Z) :
  Z.abs (a - b) < 360000000 ->
  String.length (timeSpanToString (mkDate (Int a)) (mkDate (Int b)))
  = (12 - nines (Z.abs (a - b)))%nat.
Proof. intros Hlt. now apply span_length. Qed.

(** 9 hours, 9 minutes and 9 seconds: nine characters. *)
Lemma timeSpanToString_length_witness :
  String.length (timeSpanToString (mkDate (Int 0)) (mkDate (Int 32949000)))
  = (12 - nines (Z.abs (0 - 32949000)))%nat.
Proof. apply timeSpanToString_length. reflexivity. Defined.

Lemma formatSpan_length (D : Z) :
  0 <= D < 360000000 -> String.length (formatSpan D) = 12%nat.
Proof.
  intros HD. unfold formatSpan.
  rewrite !length_append, !padded2_length, padded3_length by lia.
  reflexivity.
Qed.

(** X2. Under a hundred hours the result is the zero-padded
    ["HH:mm:ss.sss"] exactly when none of the hours, minutes and seconds
    is 9. *)
Theorem timeSpanToString_formatSpan_iff (a b : Z) :
  Z.abs (a - b) < 360000000 ->
  timeSpanToString (mkDate (Int a)) (mkDate (Int b)) = formatSpan (Z.abs (a - b))
  <-> nines (Z.abs (a - b)) = 0%nat.
Proof.
  intros Hlt. split.
  - intros Heq. apply (f_equal String.length) in Heq.
    rewrite span_length, formatSpan_length in Heq by lia.
    assert (nines (Z.abs (a - b)) <= 3)%nat.
    { unfold nines.
      destruct (_ =? 9), (_ =? 9), (_ =? 9); cbn; lia. }
    lia.
  - intros H9. set (D := Z.abs (a - b)) in *.
    assert (0 <= D) by (subst D; lia).
    rewrite timeSpanToString_unfold, timeSpanFields_exact by (fold D; lia).
    fold D. cbv beta iota. unfold formatSpan.
    rewrite !pad2_padded, pad3_padded by lia.
    unfold nines in H9.
    destruct (D / 3600000 =? 9), (D mod 3600000 / 60000 =? 9),
      (D mod 60000 / 1000 =? 9); try discriminate H9. reflexivity.
Qed.

Lemma timeSpanToString_formatSpan_iff_witness :
  timeSpanToString (mkDate (Int 0)) (mkDate (Int 19210453))
  = formatSpan (Z.abs (0 - 19210453)).
Proof.
  apply (timeSpanToString_formatSpan_iff 0 19210453); reflexivity.
Defined.

(** X4. The result depends on the two instants through their absolute
    difference only. *)
Theorem timeSpanToString_difference (a b a' b' : Z) :
  Z.abs (a - b) = Z.abs (a' - b') ->
  timeSpanToString (mkDate (Int a)) (mkDate (Int b))
  = timeSpanToString (mkDate (Int a')) (mkDate (Int b')).
Proof.
  intros H. rewrite !timeSpanToString_unfold. unfold timeSpanFields, getTime.
  cbn [DateValue sub lift2 Math_abs].
  assert (E : Z.abs (round53 (a - b)) = Z.abs (round53 (a' - b'))).
  { destruct (Z.abs_eq_cases _ _ H) as [->| ->]; [reflexivity|].
    rewrite round53_opp. apply Z.abs_opp. }
  rewrite E. reflexivity.
Qed.

Lemma timeSpanToString_difference_witness :
  timeSpanToString (mkDate (Int 1000)) (mkDate (Int 4600250))
  = timeSpanToString (mkDate (Int (-8640000000000000)))
                     (mkDate (Int (-8640000004599250))).
Proof. apply timeSpanToString_difference. reflexivity. Defined.

(** X5. An invalid date on either side gives ["0NaN:0NaN:0NaN.NaN"]. *)
Theorem timeSpanToString_invalid (d : Date) :
  timeSpanToString (mkDate NaN) d = "0NaN:0NaN:0NaN.NaN" /\
  timeSpanToString d (mkDate NaN) = "0NaN:0NaN:0NaN.NaN".
Proof.
  destruct d as [[|t]]; split; reflexivity.
Qed.

(** *** [isLeapYear], further *)

(** X7. An invalid date is reported as a leap year: [getFullYear] is [NaN],
    so is the month of the constructed date, and [!NaN] is [true]. *)
Theorem isLeapYear_invalid (host : Host) :
  isLeapYear host (mkDate NaN) = true.
Proof. reflexivity. Qed.

Lemma MonthFromTime_Day t t' : Day t = Day t' -> MonthFromTime t = MonthFromTime t'.
Proof.
  intros H. unfold MonthFromTime, DayWithinYear, InLeapYear, YearFromTime.
  now rewrite H.
Qed.

Lemma keepsMidnights_dstHost : keepsMidnights dstHost.
Proof.
  intros day x. unfold LocalTime, dstHost, msPerDay. cbn [LocalTZA].
  destruct (Z.leb_spec 1456707600000 x);
    repeat match goal with
           | |- context [?a <=? ?b] => destruct (Z.leb_spec a b)
           end; lia.
Qed.

(** X6. On every host that reads local midnights back on their own day
    (constant offsets, and daylight saving time as ECMA-262 resolves
    skipped and repeated local times), [isLeapYear] follows the
    Gregorian rule for every date whose local year is not 0 and lies
    after the first year of the time range. *)
Theorem isLeapYear_follows_rule (host : Host) (d : Date) (Y : Z) :
  keepsMidnights host ->
  getFullYear host d = Int Y ->
  Y <> 0 -> -271821 < Y <= 275760 ->
  isLeapYear host d = gregorianLeap Y.
Proof.
  intros Hhost HY Hnz Hrange.
  unfold isLeapYear. rewrite HY.
  set (yr := if (0 <=? Y) && (Y <=? 99) then 1900 + Y else Y).
  assert (Hyr : -271821 < yr <= 275760).
  { subst yr. destruct (Z.leb_spec 0 Y), (Z.leb_spec Y 99); cbn [andb]; lia. }
  assert (Hg : gregorianLeap yr = gregorianLeap Y).
  { subst yr.
    destruct (Z.leb_spec 0 Y), (Z.leb_spec Y 99); cbn [andb]; try reflexivity.
    apply gregorianLeap_two_digit. lia. }
  set (x := (DayFromYear yr + 59) * msPerDay).
  destruct (Hhost (DayFromYear yr + 59)) as [Hoff Hback]. fold x in Hoff, Hback.
  set (off := LocalTZA host x false) in *.
  assert (Hnew : Date_of_ymd host (Int Y) (Int 1) (Int 29) = mkDate (Int (x - off))).
  { unfold Date_of_ymd, MakeFullYear. fold yr.
    replace (if (0 <=? Y) && (Y <=? 99) then Int (1900 + Y) else Int Y)
      with (Int yr)
      by (subst yr; destruct ((0 <=? Y) && (Y <=? 99)); reflexivity).
    unfold MakeDay. change (1 / 12) with 0. change (1 mod 12) with 1.
    rewrite Z.add_0_r. cbn [DaysBeforeMonth].
    cbn [MakeTime MakeDate UTC].
    replace ((DayFromYear yr + 31 + 29 - 1) * msPerDay
             + (0 * msPerHour + 0 * msPerMinute + 0 * msPerSecond + 0)) with x
      by (subst x; unfold msPerDay, msPerHour, msPerMinute, msPerSecond; lia).
    fold off. unfold TimeClip.
    assert (Z.abs (x - off) <= maxTime).
    { subst x. clearbody off. unfold maxTime, msPerDay, DayFromYear in *. lia. }
    destruct (Z.ltb_spec maxTime (Z.abs (x - off))); [lia | reflexivity]. }
  rewrite Hnew. unfold getMonth, getter. cbn [DateValue].
  rewrite (MonthFromTime_Day (LocalTime host (x - off)) x).
  - subst x. rewrite MonthFromTime_feb29, <- Hg, <- DaysInYear_gregorian.
    destruct (DaysInYear yr =? 366); reflexivity.
  - clearbody off. set (lt := LocalTime host (x - off)) in *. clearbody lt.
    subst x. unfold Day, msPerDay in *. lia.
Qed.

(** 15 June 2016 on the host whose clocks skip the midnight that begins
    29 February 2016: [new Date(2016, 1, 29)] is 01:00 of that day. *)
Lemma isLeapYear_follows_rule_witness :
  isLeapYear dstHost (mkDate (utcInstant 2016 6 15 0 0 0 0)) = true.
Proof.
  apply (isLeapYear_follows_rule dstHost _ 2016);
    [exact keepsMidnights_dstHost | reflexivity | lia | lia].
Defined.

(** *** [angleBetweenClockHands], further *)

(** An invalid date gives [NaN]. *)
Theorem angleBetweenClockHands_invalid (host : Host) :
  angleBetweenClockHands host (mkDate NaN) = nan.
Proof. reflexivity. Qed.

(** Two functions with the same table on [0 .. n-1] agree there. *)
Lemma ext_range {A : Type} (f g : Z -> A) (n : nat) :
  map f (map Z.of_nat (seq 0 n)) = map g (map Z.of_nat (seq 0 n)) ->
  forall z, 0 <= z < Z.of_nat n -> f z = g z.
Proof.
  intros H z Hz. apply (proj1 map_ext_in_iff H).
  apply in_map_iff. exists (Z.to_nat z). split; [lia|].
  apply in_seq. lia.
Qed.

(** For every hour and minute the source's arithmetic gives the angle
    between the two hands as the clock shows them, converted to
    radians. *)
Lemma clockAngle_handsApart (h m : Z) :
  0 <= h < 24 -> 0 <= m < 60 ->
  clockAngle (Double.of_Number (Int h)) (Double.of_Number (Int m))
  = radians (handsApart h m).
Proof.
  intros Hh Hm.
  pose (F := fun h m =>
         clockAngle (Double.of_Number (Int h)) (Double.of_Number (Int m))).
  pose (G := fun h m => radians (handsApart h m)).
  change (F h m = G h m).
  assert (HP : map (F h) (map Z.of_nat (seq 0 60))
               = map (G h) (map Z.of_nat (seq 0 60))).
  { apply (ext_range (fun h => map (F h) (map Z.of_nat (seq 0 60)))
                     (fun h => map (G h) (map Z.of_nat (seq 0 60))) 24);
      [vm_compute; reflexivity | lia]. }
  apply (ext_range (F h) (G h) 60 HP). lia.
Qed.

(** X8. The angle is the angle between the hands of a clock that shows the
    UTC hour and the local minute of the date, in radians. *)
Theorem angleBetweenClockHands_handsApart (host : Host) (t : Z) :
  angleBetweenClockHands host (mkDate (Int t))
  = radians (handsApart (HourFromTime t) (MinFromTime (LocalTime host t))).
Proof.
  rewrite angleBetweenClockHands_unfold.
  unfold getUTCHours, getMinutes, getter. cbn [DateValue].
  apply clockAngle_handsApart; [apply HourFromTime_range | apply MinFromTime_range].
Qed.

Lemma handsApart_period (h m : Z) :
  handsApart ((h + 12) mod 24) m = handsApart h m.
Proof. unfold handsApart, hourHand. f_equal; f_equal; f_equal; lia. Qed.

(** X9. Twelve hours later the angle is the same: the UTC hours [h] and
    [(h + 12) mod 24] with the same minute give the same angle, also
    between 0 o'clock and 12 o'clock, where the source does not reduce
    the hour. *)
Theorem angleBetweenClockHands_twelve_hours
    (host1 host2 : Host) (d1 d2 : Date) (h m : Z) :
  getUTCHours d1 = Int h ->
  getUTCHours d2 = Int ((h + 12) mod 24) ->
  getMinutes host1 d1 = Int m ->
  getMinutes host2 d2 = Int m ->
  angleBetweenClockHands host1 d1 = angleBetweenClockHands host2 d2.
Proof.
  intros H1 H2 M1 M2.
  assert (Hh : 0 <= h < 24).
  { unfold getUTCHours, getter in H1. destruct (DateValue d1); [discriminate|].
    injection H1 as <-. apply HourFromTime_range. }
  assert (Hm : 0 <= m < 60).
  { unfold getMinutes, getter in M1. destruct (DateValue d1); [discriminate|].
    injection M1 as <-. apply MinFromTime_range. }
  rewrite !angleBetweenClockHands_unfold, H1, H2, M1, M2.
  rewrite !clockAngle_handsApart by lia.
  now rewrite handsApart_period.
Qed.

Lemma angleBetweenClockHands_twelve_hours_witness :
  angleBetweenClockHands utcHost (mkDate (utcInstant 2016 4 5 0 20 0 0))
  = angleBetweenClockHands istHost (mkDate (utcInstant 2016 4 5 12 50 0 0)).
Proof.
  apply (angleBetweenClockHands_twelve_hours utcHost istHost _ _ 0 20);
    reflexivity.
Defined.

Lemma handsApart_range (h m : Z) :
  0 <= h < 24 -> 0 <= m < 60 -> 0 <= handsApart h m <= 360.
Proof. intros Hh Hm. unfold handsApart, hourHand, minuteHand. lia. Qed.

(** X10. The angle is [0] exactly when the hands meet, at 0:00 and 12:00,
    and [Math.PI] exactly when they are opposite, at 6:00 and 18:00. *)
Theorem angleBetweenClockHands_zero_and_PI (host : Host) (t : Z) :
  let h := HourFromTime t in
  let m := MinFromTime (LocalTime host t) in
  (angleBetweenClockHands host (mkDate (Int t)) = 0%float
   <-> h mod 12 = 0 /\ m = 0) /\
  (angleBetweenClockHands host (mkDate (Int t)) = Math_PI
   <-> h mod 12 = 6 /\ m = 0).
Proof.
  cbv zeta. rewrite angleBetweenClockHands_unfold.
  unfold getUTCHours, getMinutes, getter. cbn [DateValue].
  rewrite clockAngle_handsApart
    by (apply HourFromTime_range || apply MinFromTime_range).
  pose proof (HourFromTime_range t) as Hh.
  pose proof (MinFromTime_range (LocalTime host t)) as Hm.
  set (h := HourFromTime t) in *. set (m := MinFromTime (LocalTime host t)) in *.
  clearbody h m.
  pose (F := fun h m =>
         ((radians (handsApart h m) =? 0)%float,
          (radians (handsApart h m) =? Math_PI)%float)).
  pose (G := fun h m =>
         ((h mod 12 =? 0) && (m =? 0), (h mod 12 =? 6) && (m =? 0))).
  assert (HT : map (F h) (map Z.of_nat (seq 0 60))
               = map (G h) (map Z.of_nat (seq 0 60))).
  { apply (ext_range (fun h => map (F h) (map Z.of_nat (seq 0 60)))
                     (fun h => map (G h) (map Z.of_nat (seq 0 60))) 24);
      [vm_compute; reflexivity | lia]. }
  assert (HFG : F h m = G h m) by (apply (ext_range (F h) (G h) 60 HT); lia).
  unfold F, G in HFG. injection HFG as H0 HPI.
  split; split.
  - intros E. rewrite E in H0. change (0 =? 0)%float with true in H0.
    symmetry in H0. apply andb_true_iff in H0. now rewrite !Z.eqb_eq in H0.
  - intros [E1 E2]. subst m.
    assert (E : handsApart h 0 = 0) by (unfold handsApart, hourHand, minuteHand; lia).
    rewrite E. reflexivity.
  - intros E. rewrite E in HPI. change (Math_PI =? Math_PI)%float with true in HPI.
    symmetry in HPI. apply andb_true_iff in HPI. now rewrite !Z.eqb_eq in HPI.
  - intros [E1 E2]. subst m.
    assert (E : handsApart h 0 = 360)
      by (unfold handsApart, hourHand, minuteHand; lia).
    rewrite E. reflexivity.
Qed.

(** *** Decimal digits, read back *)

Lemma list_ascii_of_string_app (s1 s2 : string) :
  list_ascii_of_string (s1 ++ s2)
  = (list_ascii_of_string s1 ++ list_ascii_of_string s2)%list.
Proof. induction s1 as [|c s1 IH]; cbn; [reflexivity | now rewrite IH]. Qed.

Lemma digits_app (n : nat) :
  forall acc l v rest,
    digits n acc l = Some (v, []) ->
    digits n acc (l ++ rest)%list = Some (v, rest).
Proof.
  induction n as [|n IH]; intros acc l v rest H.
  - cbn in H. injection H as <- ->. reflexivity.
  - destruct l as [|c l]; [discriminate|]. cbn in *.
    destruct (digit c); [|discriminate]. now apply IH.
Qed.

Lemma digitRun_app (l : list ascii) :
  forall acc len v k c rest,
    digitRun acc len l = (v, k, []) -> digit c = None ->
    digitRun acc len (l ++ c :: rest)%list = (v, k, c :: rest).
Proof.
  induction l as [|a l IH]; intros acc len v k c rest H Hc; cbn in *.
  - injection H as <- <-. now rewrite Hc.
  - destruct (digit a); [now apply IH | discriminate].
Qed.

Lemma digits_uchars (d : Decimal.uint) :
  forall acc, digits (Decimal.nb_digits d) acc (uchars d)
              = Some (valueAcc d acc, []).
Proof. induction d; intros acc; cbn; [reflexivity | apply IHd ..]. Qed.

Lemma digitRun_uchars (d : Decimal.uint) :
  forall acc len, exists k, digitRun acc len (uchars d) = (valueAcc d acc, k, []).
Proof.
  induction d; intros acc len; cbn; [eexists; reflexivity | apply IHd ..].
Qed.

Lemma valueAcc_of_uint_acc (d : Decimal.uint) :
  forall acc, Z.pos (Pos.of_uint_acc d acc) = valueAcc d (Z.pos acc).
Proof.
  induction d; intros acc; cbn [Pos.of_uint_acc valueAcc];
    [reflexivity | rewrite IHd; f_equal; lia ..].
Qed.

Lemma valueAcc_of_uint (d : Decimal.uint) :
  Z.of_N (Pos.of_uint d) = valueAcc d 0.
Proof.
  induction d; cbn [Pos.of_uint valueAcc Z.of_N];
    [reflexivity | exact IHd | now rewrite valueAcc_of_uint_acc ..].
Qed.

(** The digits of a positive number denote it. *)
Lemma valueAcc_to_uint (p : positive) : valueAcc (Pos.to_uint p) 0 = Z.pos p.
Proof. now rewrite <- valueAcc_of_uint, DecimalPos.Unsigned.of_to. Qed.

Lemma valueAcc_lower (d : Decimal.uint) :
  forall acc, 0 <= acc ->
              acc * 10 ^ Z.of_nat (Decimal.nb_digits d) <= valueAcc d acc.
Proof.
  induction d; intros acc Hacc; cbn [valueAcc Decimal.nb_digits];
    [rewrite Z.pow_0_r; lia | ..];
    rewrite Nat2Z.inj_succ, Z.pow_succ_r by lia;
    (etransitivity; [|apply IHd; lia]);
    assert (0 < 10 ^ Z.of_nat (Decimal.nb_digits d))
      by (apply Z.pow_pos_nonneg; lia); nia.
Qed.

Lemma unorm_head (d l : Decimal.uint) :
  Decimal.unorm d = d -> d <> Decimal.zero -> d <> Decimal.D0 l.
Proof.
  intros Hnorm Hnz ->. rewrite DecimalFacts.unorm_D0 in Hnorm.
  destruct (Decimal.uint_eq_dec l Decimal.Nil) as [->|Hl].
  - now apply Hnz.
  - pose proof (DecimalFacts.nb_digits_unorm l Hl) as Hle.
    rewrite Hnorm in Hle. cbn in Hle. lia.
Qed.

Lemma valueAcc_head (d : Decimal.uint) :
  d <> Decimal.Nil -> (forall l, d <> Decimal.D0 l) ->
  10 ^ (Z.of_nat (Decimal.nb_digits d) - 1) <= valueAcc d 0.
Proof.
  intros Hnn Hh.
  destruct d as [|l|l|l|l|l|l|l|l|l|l];
    [contradiction | exfalso; now apply (Hh l) | ..];
    cbn [valueAcc Decimal.nb_digits];
    rewrite Nat2Z.inj_succ;
    replace (Z.succ (Z.of_nat (Decimal.nb_digits l)) - 1)
      with (Z.of_nat (Decimal.nb_digits l)) by lia;
    match goal with
    | |- _ <= valueAcc l ?k =>
        pose proof (valueAcc_lower l k ltac:(lia)) as Hlow
    end;
    assert (0 < 10 ^ Z.of_nat (Decimal.nb_digits l))
      by (apply Z.pow_pos_nonneg; lia);
    nia.
Qed.

(** The digits of a positive number do not begin with a zero, so there
    are at most [w] of them below [10 ^ w]. *)
Lemma nb_digits_to_uint (p : positive) (w : nat) :
  Z.pos p < 10 ^ Z.of_nat w -> (Decimal.nb_digits (Pos.to_uint p) <= w)%nat.
Proof.
  intros Hp.
  assert (Hnorm : Decimal.unorm (Pos.to_uint p) = Pos.to_uint p).
  { rewrite <- (DecimalPos.Unsigned.to_of (Pos.to_uint p)), DecimalPos.Unsigned.of_to. reflexivity. }
  pose proof (valueAcc_head (Pos.to_uint p) (DecimalPos.Unsigned.to_uint_nonnil p)
                (fun l => unorm_head _ l Hnorm (DecimalPos.Unsigned.to_uint_nonzero p)))
    as Hlow.
  rewrite valueAcc_to_uint in Hlow.
  destruct (Nat.le_gt_cases (Decimal.nb_digits (Pos.to_uint p)) w) as [|Hgt];
    [assumption | exfalso].
  assert (Hpow : 10 ^ Z.of_nat w
                 <= 10 ^ (Z.of_nat (Decimal.nb_digits (Pos.to_uint p)) - 1))
    by (apply Z.pow_le_mono_r; lia).
  lia.
Qed.

Lemma string_of_int_udigits (n : Z) :
  0 <= n ->
  NilZero.string_of_int (Z.to_int n) = NilEmpty.string_of_uint (udigits n).
Proof.
  intros Hn. destruct n as [|p|p]; [reflexivity | | lia].
  cbn [Z.to_int NilZero.string_of_int udigits]. unfold NilZero.string_of_uint.
  pose proof (DecimalPos.Unsigned.to_uint_nonnil p) as Hnn.
  destruct (Pos.to_uint p); [contradiction | reflexivity ..].
Qed.

Lemma valueAcc_udigits (n : Z) : 0 <= n -> valueAcc (udigits n) 0 = n.
Proof.
  intros Hn. destruct n as [|p|p]; [reflexivity | apply valueAcc_to_uint | lia].
Qed.

Lemma nb_digits_udigits (n : Z) (w : nat) :
  0 <= n < 10 ^ Z.of_nat w -> (1 <= w)%nat ->
  (Decimal.nb_digits (udigits n) <= w)%nat.
Proof.
  intros Hn Hw. destruct n as [|p|p]; [exact Hw | | lia].
  apply nb_digits_to_uint. lia.
Qed.

Lemma length_string_of_uint (d : Decimal.uint) :
  String.length (NilEmpty.string_of_uint d) = Decimal.nb_digits d.
Proof. induction d; cbn; [reflexivity | now rewrite IHd ..]. Qed.

Lemma padded_udigits (n : Z) (w : nat) :
  0 <= n ->
  padded n w
  = (repeat "0"%char (w - Decimal.nb_digits (udigits n)) ++ uchars (udigits n))%list.
Proof.
  intros Hn. unfold padded, ToZeroPaddedDecimalString, uchars.
  rewrite string_of_int_udigits by exact Hn.
  rewrite list_ascii_of_string_app, list_ascii_of_string_of_list_ascii,
    length_string_of_uint.
  reflexivity.
Qed.

Lemma digits_zeros (k : nat) :
  forall m l, digits (k + m) 0 (repeat "0"%char k ++ l)%list = digits m 0 l.
Proof. induction k as [|k IH]; intros m l; [reflexivity | apply IH]. Qed.

Lemma digitRun_zeros (k : nat) :
  forall len l, exists len',
    digitRun 0 len (repeat "0"%char k ++ l)%list = digitRun 0 len' l.
Proof.
  induction k as [|k IH]; intros len l; [now exists len | apply IH].
Qed.

(** [digits w] reads [ToZeroPaddedDecimalString n w] back. *)
Lemma digits_padded (w : nat) (n : Z) (rest : list ascii) :
  0 <= n < 10 ^ Z.of_nat w -> (1 <= w)%nat ->
  digits w 0 (padded n w ++ rest)%list = Some (n, rest).
Proof.
  intros Hn Hw. apply digits_app.
  pose proof (nb_digits_udigits n w Hn Hw) as Hnb.
  rewrite padded_udigits by lia.
  replace w with ((w - Decimal.nb_digits (udigits n))
                  + Decimal.nb_digits (udigits n))%nat at 1 by lia.
  rewrite digits_zeros, digits_uchars, valueAcc_udigits by lia.
  reflexivity.
Qed.

(** [digitRun] reads [ToZeroPaddedDecimalString n w] back, up to a
    space. *)
Lemma digitRun_padded (w : nat) (n : Z) (rest : list ascii) :
  0 <= n ->
  exists k, digitRun 0 0 (padded n w ++ " "%char :: rest)%list
            = (n, k, " "%char :: rest).
Proof.
  intros Hn. rewrite padded_udigits by exact Hn.
  destruct (digitRun_zeros (w - Decimal.nb_digits (udigits n)) 0
              (uchars (udigits n))) as [len Hz].
  destruct (digitRun_uchars (udigits n) 0 len) as [k Hk].
  exists k. apply digitRun_app; [|reflexivity].
  rewrite Hz, Hk, valueAcc_udigits by exact Hn. reflexivity.
Qed.

(** A padded number begins with a digit. *)
Lemma padded_head (n : Z) (w : nat) :
  0 <= n -> exists c l v, padded n w = c :: l /\ digit c = Some v.
Proof.
  intros Hn. rewrite padded_udigits by exact Hn.
  destruct (w - Decimal.nb_digits (udigits n))%nat as [|k].
  - cbn [repeat app]. unfold uchars.
    assert (Hnn : udigits n <> Decimal.Nil).
    { destruct n as [|p|p]; [discriminate | apply DecimalPos.Unsigned.to_uint_nonnil | lia]. }
    destruct (udigits n);
      [contradiction | cbn; do 3 eexists; split; reflexivity ..].
  - cbn [repeat app]. do 3 eexists. split; reflexivity.
Qed.

(** *** Calendar fields, put together again *)

Lemma DayWithinYear_range t :
  0 <= DayWithinYear t < DaysInYear (YearFromTime t).
Proof.
  unfold DayWithinYear.
  pose proof (YearFromTime_spec t) as [Slo Shi].
  unfold TimeFromYear in *. rewrite DayFromYear_succ in Shi.
  unfold Day, msPerDay in *. lia.
Qed.

(** The calendar fields of a time value are a month, a day of that
    month, and they name the day of the time value. *)
Lemma calendar_fields t :
  let y := YearFromTime t in
  let l := if DaysInYear y =? 366 then 1 else 0 in
  0 <= MonthFromTime t <= 11 /\
  1 <= DateFromTime t <= DaysInMonth y (MonthFromTime t + 1) /\
  DayFromYear y + DaysBeforeMonth (MonthFromTime t) l + DateFromTime t - 1
    = Day t.
Proof.
  cbv zeta.
  pose proof (DayWithinYear_range t) as Hr.
  pose proof (DaysInYear_bounds (YearFromTime t)) as Hb.
  unfold DateFromTime, MonthFromTime, InLeapYear, DaysInMonth.
  assert (Hd : Day t = DayFromYear (YearFromTime t) + DayWithinYear t)
    by (unfold DayWithinYear; lia).
  rewrite Hd. clear Hd.
  set (d := DayWithinYear t) in *. set (y := YearFromTime t) in *.
  destruct (Z.eqb_spec (DaysInYear y) 366) as [E|E];
    repeat match goal with
           | |- context [?a <? ?b] => destruct (Z.ltb_spec a b)
           end; cbn; lia.
Qed.

Lemma time_fields t :
  HourFromTime t * msPerHour + MinFromTime t * msPerMinute
    + SecFromTime t * msPerSecond + msFromTime t
  = t - Day t * msPerDay.
Proof.
  unfold HourFromTime, MinFromTime, SecFromTime, msFromTime, Day, HoursPerDay,
    MinutesPerHour, SecondsPerMinute, msPerHour, msPerMinute, msPerSecond,
    msPerDay.
  lia.
Qed.

(** Taking a time value apart into its UTC fields and putting it
    together again with [MakeDay], [MakeTime] and [MakeDate] gives the
    time value back. *)
Lemma MakeDate_fields t :
  MakeDate (MakeDay (Int (YearFromTime t)) (Int (MonthFromTime t))
                    (Int (DateFromTime t)))
           (MakeTime (Int (HourFromTime t)) (Int (MinFromTime t))
                     (Int (SecFromTime t)) (Int (msFromTime t)))
  = Int t.
Proof.
  pose proof (calendar_fields t) as (Hm & Hd & Hday). cbv zeta in *.
  unfold MakeDay, MakeTime, MakeDate.
  replace (MonthFromTime t / 12) with 0 by lia.
  replace (MonthFromTime t mod 12) with (MonthFromTime t) by lia.
  rewrite Z.add_0_r.
  set (l := if DaysInYear (YearFromTime t) =? 366 then 1 else 0) in *.
  f_equal. rewrite time_fields. lia.
Qed.

Lemma digits_padded2 (n : Z) (rest : list ascii) :
  0 <= n < 100 -> digits 2 0 (padded n 2 ++ rest)%list = Some (n, rest).
Proof. intros H. apply digits_padded; [exact H | repeat constructor]. Qed.

Lemma digits_padded3 (n : Z) (rest : list ascii) :
  0 <= n < 1000 -> digits 3 0 (padded n 3 ++ rest)%list = Some (n, rest).
Proof. intros H. apply digits_padded; [exact H | repeat constructor]. Qed.

Lemma digits_padded4 (n : Z) (rest : list ascii) :
  0 <= n < 10000 -> digits 4 0 (padded n 4 ++ rest)%list = Some (n, rest).
Proof. intros H. apply digits_padded; [exact H | repeat constructor]. Qed.

Lemma digits_padded6 (n : Z) (rest : list ascii) :
  0 <= n < 1000000 -> digits 6 0 (padded n 6 ++ rest)%list = Some (n, rest).
Proof. intros H. apply digits_padded; [exact H | repeat constructor]. Qed.

(** *** [parseDataFromIso8601] and [toISOString] *)

(** A digit is neither a sign nor a letter: matching it against a
    pattern of one of those falls through. *)
Lemma digit_isoYear (c : ascii) (l : list ascii) (w : Z) :
  digit c = Some w -> isoYear (c :: l) = digits 4 0 (c :: l).
Proof.
  destruct c as [[|] [|] [|] [|] [|] [|] [|] [|]]; cbn; intros H;
    try discriminate H; reflexivity.
Qed.

Lemma isoYear_toISOString (yv : Z) (rest : list ascii) :
  -300000 < yv < 300000 ->
  isoYear
    (list_ascii_of_string
       (if (0 <=? yv) && (yv <=? 9999) then ToZeroPaddedDecimalString yv 4
        else (if 0 <=? yv then "+" else "-")
               ++ ToZeroPaddedDecimalString (Z.abs yv) 6) ++ rest)%list
  = Some (yv, rest).
Proof.
  intros Hy.
  destruct (Z.leb_spec 0 yv) as [Hpos|Hneg]; cbn [andb].
  - destruct (Z.leb_spec yv 9999) as [Hs|Hl].
    + pose proof (digits_padded4 yv rest ltac:(lia)) as H.
      unfold padded in H.
      destruct (padded_head yv 4 Hpos) as (c & l & w & E & Hw).
      unfold padded in E. rewrite E in *. cbn [app] in *.
      rewrite (digit_isoYear c _ w Hw). exact H.
    + rewrite list_ascii_of_string_app. cbn [list_ascii_of_string app isoYear].
      replace (Z.abs yv) with yv by lia.
      apply (digits_padded6 yv rest). lia.
  - rewrite list_ascii_of_string_app. cbn [list_ascii_of_string app isoYear].
    pose proof (digits_padded6 (Z.abs yv) rest ltac:(lia)) as H6.
    unfold padded in H6. rewrite H6. cbn [bind]. destruct (Z.eqb_spec (Z.abs yv) 0); [lia|].
    f_equal. f_equal. lia.
Qed.

Lemma isoDate_fields (year : list ascii) (y m d : Z) (rest : list ascii) :
  (forall r, isoYear (year ++ r)%list = Some (y, r)) ->
  0 <= m < 100 -> 0 <= d < 100 ->
  isoDate (year ++ "-"%char :: padded m 2 ++ "-"%char :: padded d 2 ++ rest)%list
  = Some (y, m, d, rest).
Proof.
  intros Hy Hm Hd. unfold isoDate.
  rewrite Hy. cbn [bind].
  rewrite digits_padded2 by exact Hm. cbn [bind].
  rewrite digits_padded2 by exact Hd. reflexivity.
Qed.

Lemma isoTime_fields (h m s ms : Z) (rest : list ascii) :
  0 <= h < 100 -> 0 <= m < 100 -> 0 <= s < 100 -> 0 <= ms < 1000 ->
  isoTime (padded h 2 ++ ":"%char :: padded m 2 ++ ":"%char :: padded s 2
             ++ "."%char :: padded ms 3 ++ rest)%list
  = Some (h, m, s, ms, rest).
Proof.
  intros Hh Hm Hs Hms. unfold isoTime.
  rewrite digits_padded2 by exact Hh. cbn [bind expect Ascii.eqb Bool.eqb].
  rewrite digits_padded2 by exact Hm. cbn [bind].
  rewrite digits_padded2 by exact Hs. cbn [bind].
  rewrite digits_padded3 by exact Hms. reflexivity.
Qed.

Lemma YearFromTime_range t :
  - maxTime <= t <= maxTime -> -271821 <= YearFromTime t <= 275760.
Proof.
  intros Ht. pose proof (YearFromTime_spec t) as [Slo Shi].
  set (y := YearFromTime t) in *. unfold TimeFromYear, msPerDay, maxTime in *.
  split.
  - destruct (Z.le_gt_cases (-271821) y) as [|Hlt]; [assumption|].
    pose proof (DayFromYear_mono (y + 1) (-271821) ltac:(lia)) as Hmono.
    change (DayFromYear (-271821)) with (-100000109) in Hmono. lia.
  - destruct (Z.le_gt_cases y 275760) as [|Hgt]; [assumption|].
    pose proof (DayFromYear_mono 275761 y ltac:(lia)) as Hmono.
    change (DayFromYear 275761) with 100000110 in Hmono. lia.
Qed.

Lemma SecFromTime_range t : 0 <= SecFromTime t < 60.
Proof. unfold SecFromTime, SecondsPerMinute. apply Z.mod_pos_bound. lia. Qed.

Lemma msFromTime_range t : 0 <= msFromTime t < 1000.
Proof. unfold msFromTime, msPerSecond. apply Z.mod_pos_bound. lia. Qed.

(** X11. [parseDataFromIso8601] reads back what [toISOString] writes: for
    every valid date, from the first instant of the time range to the
    last, on every host, the string [d.toISOString()] is parsed to the
    time value of [d]. *)
Theorem parseDataFromIso8601_toISOString (host : Host) (t : Z) (s : string) :
  - maxTime <= t <= maxTime ->
  toISOString (mkDate (Int t)) = Some s ->
  parseDataFromIso8601 host s = Int t.
Proof.
  intros Hrange Hs. unfold toISOString in Hs. cbn [DateValue] in Hs.
  injection Hs as <-.
  pose proof (YearFromTime_range t Hrange) as Hy.
  pose proof (calendar_fields t) as (Hm & Hd & _). cbv zeta in Hd.
  pose proof (MakeDate_fields t) as Hmake.
  pose proof (HourFromTime_range t) as Hh.
  pose proof (MinFromTime_range t) as Hmi.
  pose proof (SecFromTime_range t) as Hsec.
  pose proof (msFromTime_range t) as Hms.
  assert (Hd31 : DateFromTime t < 100).
  { unfold DaysInMonth in Hd.
    destruct (MonthFromTime t + 1) as [|p|p];
      try destruct (DaysInYear (YearFromTime t) =? 366); try lia;
      do 4 (try destruct p as [p|p|]); lia. }
  unfold parseDataFromIso8601, Date_parse, parseDateTimeString.
  repeat (rewrite list_ascii_of_string_app || cbn [list_ascii_of_string app]).
  fold (padded (MonthFromTime t + 1) 2). fold (padded (DateFromTime t) 2).
  fold (padded (HourFromTime t) 2). fold (padded (MinFromTime t) 2).
  fold (padded (SecFromTime t) 2). fold (padded (msFromTime t) 3).
  rewrite (isoDate_fields _ (YearFromTime t));
    [| intros r; apply isoYear_toISOString; lia | lia | lia].
  cbn [bind].
  replace ((1 <=? MonthFromTime t + 1) && (MonthFromTime t + 1 <=? 12)
           && (1 <=? DateFromTime t)
           && (DateFromTime t <=? DaysInMonth (YearFromTime t) (MonthFromTime t + 1)))
    with true
    by (symmetry; rewrite !andb_true_iff, !Z.leb_le; lia).
  cbn [guard bind].
  rewrite isoTime_fields by lia.
  cbn [bind isoOffset].
  replace ((HourFromTime t <=? 24) && (MinFromTime t <=? 59)
           && (SecFromTime t <=? 59)) with true
    by (symmetry; rewrite !andb_true_iff, !Z.leb_le; lia).
  replace (HourFromTime t <? 24) with true by (symmetry; apply Z.ltb_lt; lia).
  cbn [guard bind orb].
  replace (MonthFromTime t + 1 - 1) with (MonthFromTime t) by lia.
  rewrite Hmake.
  change (0 * msPerMinute) with 0.
  rewrite sub_small by (unfold maxTime in *; lia).
  rewrite Z.sub_0_r. unfold TimeClip.
  destruct (Z.ltb_spec maxTime (Z.abs t)); [lia | reflexivity].
Qed.

(** The first instant of the year 2000, and the first and the last
    instant of the time range. *)
Lemma parseDataFromIso8601_toISOString_witness :
  parseDataFromIso8601 istHost "2000-01-01T00:00:00.000Z" = Int 946684800000 /\
  parseDataFromIso8601 istHost "-271821-04-20T00:00:00.000Z" = Int (- maxTime) /\
  parseDataFromIso8601 istHost "+275760-09-13T00:00:00.000Z" = Int maxTime.
Proof.
  split; [|split].
  - apply parseDataFromIso8601_toISOString; [vm_compute; split; discriminate
                                            | reflexivity].
  - apply parseDataFromIso8601_toISOString; [vm_compute; split; discriminate
                                            | reflexivity].
  - apply parseDataFromIso8601_toISOString; [vm_compute; split; discriminate
                                            | reflexivity].
Defined.

(** *** [parseDataFromRfc2822] and [toUTCString] *)

Lemma WeekDay_range t : 0 <= WeekDay t < 7.
Proof. unfold WeekDay. apply Z.mod_pos_bound. lia. Qed.

Lemma weekday_isoDate (wd : Z) (rest : list ascii) :
  0 <= wd < 7 ->
  isoDate (list_ascii_of_string (nth (Z.to_nat wd) dayNames "") ++ rest)%list
  = None.
Proof.
  intros H.
  assert (C : wd = 0 \/ wd = 1 \/ wd = 2 \/ wd = 3 \/ wd = 4 \/ wd = 5 \/ wd = 6)
    by lia.
  repeat destruct C as [->|C]; try subst wd; reflexivity.
Qed.

Lemma weekday_expectName (wd : Z) (rest : list ascii) :
  0 <= wd < 7 ->
  expectName dayNames 0
    (list_ascii_of_string (nth (Z.to_nat wd) dayNames "") ++ rest)%list
  = Some (wd, rest).
Proof.
  intros H.
  assert (C : wd = 0 \/ wd = 1 \/ wd = 2 \/ wd = 3 \/ wd = 4 \/ wd = 5 \/ wd = 6)
    by lia.
  repeat destruct C as [->|C]; try subst wd; reflexivity.
Qed.

Lemma month_expectName (mo : Z) (rest : list ascii) :
  0 <= mo < 12 ->
  expectName monthNames 0
    (list_ascii_of_string (nth (Z.to_nat mo) monthNames "") ++ rest)%list
  = Some (mo, rest).
Proof.
  intros H.
  assert (C : mo = 0 \/ mo = 1 \/ mo = 2 \/ mo = 3 \/ mo = 4 \/ mo = 5 \/
              mo = 6 \/ mo = 7 \/ mo = 8 \/ mo = 9 \/ mo = 10 \/ mo = 11)
    by lia.
  repeat destruct C as [->|C]; try subst mo; reflexivity.
Qed.

(** The characters of [toUTCString]. *)
Lemma toUTCString_chars (t : Z) :
  list_ascii_of_string (toUTCString (mkDate (Int t)))
  = (list_ascii_of_string (nth (Z.to_nat (WeekDay t)) dayNames "")
     ++ ","%char :: " "%char :: padded (DateFromTime t) 2
     ++ " "%char :: list_ascii_of_string (nth (Z.to_nat (MonthFromTime t)) monthNames "")
     ++ " "%char :: list_ascii_of_string (if 0 <=? YearFromTime t then "" else "-")
     ++ padded (Z.abs (YearFromTime t)) 4
     ++ " "%char :: padded (HourFromTime t) 2
     ++ ":"%char :: padded (MinFromTime t) 2
     ++ ":"%char :: padded (SecFromTime t) 2
     ++ list_ascii_of_string " GMT")%list.
Proof.
  unfold toUTCString, TimeString, padded. cbn [DateValue].
  repeat (rewrite list_ascii_of_string_app || cbn [list_ascii_of_string app]).
  reflexivity.
Qed.

Lemma expect_one (c : ascii) (r : list ascii) : expect [c] (c :: r) = Some r.
Proof. cbn. now rewrite Ascii.eqb_refl. Qed.

Lemma expect_two (c d : ascii) (r : list ascii) :
  expect [c; d] (c :: d :: r) = Some r.
Proof. cbn. now rewrite !Ascii.eqb_refl. Qed.

(** A time value not before the start of year [y] lies in year [y] or
    later. *)
Lemma YearFromTime_from (y t : Z) :
  TimeFromYear y <= t -> y <= YearFromTime t.
Proof.
  intros Ht. pose proof (YearFromTime_spec t) as [_ Shi].
  destruct (Z.le_gt_cases y (YearFromTime t)) as [|Hlt]; [assumption|].
  pose proof (DayFromYear_mono (YearFromTime t + 1) y ltac:(lia)) as Hmono.
  unfold TimeFromYear, msPerDay in *. lia.
Qed.

(** X12. [parseDataFromRfc2822] reads back what [toUTCString] writes: for
    every valid date from the start of the year 100 on that falls on a
    whole second, on every host, the string [d.toUTCString()] is parsed
    to the time value of [d]. *)
Theorem parseDataFromRfc2822_toUTCString (host : Host) (t : Z) :
  TimeFromYear 100 <= t <= maxTime ->
  msFromTime t = 0 ->
  parseDataFromRfc2822 host (toUTCString (mkDate (Int t))) = Int t.
Proof.
  intros Ht Hms0.
  pose proof (YearFromTime_from 100 t (proj1 Ht)) as Hy100.
  assert (Hrange : - maxTime <= t <= maxTime).
  { change (TimeFromYear 100) with (-59011459200000) in Ht.
    unfold maxTime in *. lia. }
  pose proof (YearFromTime_range t Hrange) as Hy.
  pose proof (calendar_fields t) as (Hm & Hd & _). cbv zeta in Hd.
  pose proof (MakeDate_fields t) as Hmake. rewrite Hms0 in Hmake.
  pose proof (HourFromTime_range t) as Hh.
  pose proof (MinFromTime_range t) as Hmi.
  pose proof (SecFromTime_range t) as Hsec.
  pose proof (WeekDay_range t) as Hwd.
  assert (Hd31 : DateFromTime t < 100).
  { unfold DaysInMonth in Hd.
    destruct (MonthFromTime t + 1) as [|p|p];
      try destruct (DaysInYear (YearFromTime t) =? 366); try lia;
      do 4 (try destruct p as [p|p|]); lia. }
  pose proof (toUTCString_chars t) as Hchars.
  replace (0 <=? YearFromTime t) with true in Hchars
    by (symmetry; apply Z.leb_le; lia).
  rewrite (Z.abs_eq (YearFromTime t)) in Hchars by lia.
  set (s := toUTCString (mkDate (Int t))) in *.
  assert (Hpost : toUTCString (mkDate (Int t)) = s) by reflexivity.
  clearbody s.
  unfold parseDataFromRfc2822, Date_parse.
  assert (Hiso : parseDateTimeString host s = None).
  { unfold parseDateTimeString. rewrite Hchars.
    now rewrite weekday_isoDate. }
  rewrite Hiso.
  assert (Hutc : parseUTCString s = Some (Int t)).
  { unfold parseUTCString. rewrite Hchars.
    rewrite weekday_expectName by lia. cbn [bind].
    rewrite expect_two. cbn [bind].
    rewrite digits_padded2 by lia. cbn [bind].
    rewrite expect_one. cbn [bind].
    rewrite month_expectName by lia. cbn [bind].
    rewrite expect_one. cbn [bind].
    destruct (digitRun_padded 4 (YearFromTime t)
                (padded (HourFromTime t) 2 ++ ":"%char :: padded (MinFromTime t) 2
                 ++ ":"%char :: padded (SecFromTime t) 2
                 ++ [" "%char; "G"%char; "M"%char; "T"%char])%list ltac:(lia))
      as [k Hrun].
    cbn [list_ascii_of_string app]. rewrite Hrun.
    replace (100 <=? YearFromTime t) with true
      by (symmetry; apply Z.leb_le; lia).
    cbn [guard bind].
    rewrite expect_one. cbn [bind].
    rewrite digits_padded2 by lia. cbn [bind].
    rewrite expect_one. cbn [bind].
    rewrite digits_padded2 by lia. cbn [bind].
    rewrite expect_one. cbn [bind].
    rewrite digits_padded2 by lia. cbn [bind].
    rewrite Hmake. unfold TimeClip.
    destruct (Z.ltb_spec maxTime (Z.abs t)); [lia|].
    rewrite Hpost, String.eqb_refl. reflexivity. }
  now rewrite Hutc.
Qed.

(** 1 January 100, 26 January 2016 at 13:48:02, and the last instant of
    the time range, all UTC. *)
Lemma parseDataFromRfc2822_toUTCString_witness :
  parseDataFromRfc2822 istHost "Fri, 01 Jan 0100 00:00:00 GMT"
    = Int (TimeFromYear 100) /\
  parseDataFromRfc2822 istHost "Tue, 26 Jan 2016 13:48:02 GMT"
    = Int 1453816082000 /\
  parseDataFromRfc2822 istHost "Sat, 13 Sep 275760 00:00:00 GMT" = Int maxTime.
Proof.
  split; [|split].
  - apply (parseDataFromRfc2822_toUTCString istHost (TimeFromYear 100));
      [vm_compute; split; discriminate | reflexivity].
  - apply (parseDataFromRfc2822_toUTCString istHost 1453816082000);
      [vm_compute; split; discriminate | reflexivity].
  - apply (parseDataFromRfc2822_toUTCString istHost maxTime);
      [vm_compute; split; discriminate | reflexivity].
Defined.

(** *** [parseDataFromIso8601] on dates and date-times *)

Lemma DaysBeforeMonth_range (mn l : Z) :
  0 <= l <= 1 -> 0 <= DaysBeforeMonth mn l <= 335.
Proof.
  intros Hl. unfold DaysBeforeMonth. destruct mn as [|p|p]; try lia;
    do 4 (try destruct p as [p|p|]); lia.
Qed.

Lemma DaysInMonth_range (y m : Z) : 28 <= DaysInMonth y m <= 31.
Proof.
  unfold DaysInMonth. destruct m as [|p|p]; try lia;
    do 4 (try destruct p as [p|p|]);
    try destruct (DaysInYear y =? 366); lia.
Qed.

(** The UTC instant of valid fields is a time value well inside the
    range. *)
Lemma utcInstant_valid (y mo d h mi s : Z) :
  validFields y mo d h mi s ->
  exists u, utcInstant y mo d h mi s 0 = Int u /\
            Z.abs u < 300000000000000.
Proof.
  intros (Hy & Hmo & Hd & Hh & Hmi & Hs).
  pose proof (DaysInMonth_range y mo) as Hdm.
  unfold utcInstant, MakeDay, MakeTime, MakeDate.
  replace ((mo - 1) / 12) with 0 by lia.
  replace ((mo - 1) mod 12) with (mo - 1) by lia.
  rewrite Z.add_0_r.
  set (l := if DaysInYear y =? 366 then 1 else 0).
  assert (Hl : 0 <= l <= 1) by (subst l; destruct (DaysInYear y =? 366); lia).
  pose proof (DaysBeforeMonth_range (mo - 1) l Hl) as Hb.
  assert (HY : -719528 <= DayFromYear y <= 2932897)
    by (unfold DayFromYear; lia).
  eexists. split; [reflexivity|].
  unfold msPerDay, msPerHour, msPerMinute, msPerSecond. lia.
Qed.

Lemma isoDateString_chars (y mo d : Z) (rest : list ascii) :
  0 <= y <= 9999 -> 0 <= mo < 100 -> 0 <= d < 100 ->
  isoDate (list_ascii_of_string (isoDateString y mo d) ++ rest)%list
  = Some (y, mo, d, rest).
Proof.
  intros Hy Hmo Hd. unfold isoDateString.
  repeat (rewrite list_ascii_of_string_app || cbn [list_ascii_of_string app]).
  fold (padded mo 2). fold (padded d 2).
  repeat (rewrite <- app_assoc || rewrite <- app_comm_cons).
  apply (isoDate_fields (list_ascii_of_string (ToZeroPaddedDecimalString y 4)));
    [|lia|lia].
  intros r.
  pose proof (isoYear_toISOString y r ltac:(lia)) as H.
  replace ((0 <=? y) && (y <=? 9999)) with true in H
    by (symmetry; rewrite andb_true_iff, !Z.leb_le; lia).
  exact H.
Qed.

(** The time of day without milliseconds, before anything but a
    period. *)
Lemma isoTime_seconds (h m s : Z) (rest : list ascii) :
  0 <= h < 100 -> 0 <= m < 100 -> 0 <= s < 100 ->
  match rest with "."%char :: _ => False | _ => True end ->
  isoTime (padded h 2 ++ ":"%char :: padded m 2 ++ ":"%char :: padded s 2
             ++ rest)%list
  = Some (h, m, s, 0, rest).
Proof.
  intros Hh Hm Hs Hrest. unfold isoTime.
  rewrite digits_padded2 by exact Hh. cbn [bind]. rewrite expect_one. cbn [bind].
  rewrite digits_padded2 by exact Hm. cbn [bind].
  rewrite digits_padded2 by exact Hs. cbn [bind].
  destruct rest as [|c r]; [reflexivity|].
  destruct c as [[|] [|] [|] [|] [|] [|] [|] [|]];
    try reflexivity; contradiction.
Qed.

Lemma isoOffsetString_chars (off : Z) :
  Z.abs off < 1440 ->
  isoOffset (list_ascii_of_string (isoOffsetString off)) = Some (Some off).
Proof.
  intros Hoff. unfold isoOffsetString.
  repeat (rewrite list_ascii_of_string_app || cbn [list_ascii_of_string app]).
  fold (padded (Z.abs off / 60) 2). fold (padded (Z.abs off mod 60) 2).
  rewrite <- (app_nil_r (padded (Z.abs off mod 60) 2)).
  destruct (Z.leb_spec 0 off); cbn [list_ascii_of_string app isoOffset];
    rewrite digits_padded2 by lia; cbn [bind]; rewrite expect_one; cbn [bind];
    rewrite digits_padded2 by lia; cbn [bind];
    (replace ((Z.abs off / 60 <=? 23) && (Z.abs off mod 60 <=? 59)) with true
      by (symmetry; rewrite andb_true_iff, !Z.leb_le; lia));
    do 2 f_equal; lia.
Qed.

Lemma isoDateTimeString_chars (y mo d h mi s : Z) (tail : string) :
  list_ascii_of_string (isoDateTimeString y mo d h mi s ++ tail)
  = (list_ascii_of_string (isoDateString y mo d)
     ++ "T"%char :: padded h 2 ++ ":"%char :: padded mi 2
     ++ ":"%char :: padded s 2 ++ list_ascii_of_string tail)%list.
Proof.
  unfold isoDateTimeString, padded.
  repeat (rewrite list_ascii_of_string_app || cbn [list_ascii_of_string app]).
  repeat (rewrite <- app_assoc || rewrite <- app_comm_cons).
  reflexivity.
Qed.

(** What [parseDateTimeString] makes of a date-time with valid fields
    and a tail that is an offset or nothing. *)
Lemma parseDateTimeString_fields
    (host : Host) (y mo d h mi s : Z) (tail : string) (off : option Z) :
  validFields y mo d h mi s ->
  match list_ascii_of_string tail with "."%char :: _ => False | _ => True end ->
  isoOffset (list_ascii_of_string tail) = Some off ->
  parseDateTimeString host (isoDateTimeString y mo d h mi s ++ tail)
  = Some (match off with
          | Some o => TimeClip (sub (utcInstant y mo d h mi s 0)
                                    (Int (o * msPerMinute)))
          | None => TimeClip (UTC host (utcInstant y mo d h mi s 0))
          end).
Proof.
  intros (Hy & Hmo & Hd & Hh & Hmi & Hs) Htail Hoff.
  pose proof (DaysInMonth_range y mo) as Hdm.
  unfold parseDateTimeString.
  rewrite isoDateTimeString_chars, isoDateString_chars by lia. cbn [bind].
  replace ((1 <=? mo) && (mo <=? 12) && (1 <=? d) && (d <=? DaysInMonth y mo))
    with true by (symmetry; rewrite !andb_true_iff, !Z.leb_le; lia).
  cbn [guard bind].
  rewrite isoTime_seconds by (assumption || lia). cbn [bind].
  rewrite Hoff. cbn [bind].
  replace ((h <=? 24) && (mi <=? 59) && (s <=? 59)) with true
    by (symmetry; rewrite !andb_true_iff, !Z.leb_le; lia).
  replace (h <? 24) with true by (symmetry; apply Z.ltb_lt; lia).
  cbn [guard bind orb]. unfold utcInstant. destruct off; reflexivity.
Qed.

Lemma TimeClip_small (u : Z) : Z.abs u <= maxTime -> TimeClip (Int u) = Int u.
Proof.
  intros H. unfold TimeClip.
  destruct (Z.ltb_spec maxTime (Z.abs u)); [lia | reflexivity].
Qed.

(** X13. A date-time with an explicit offset is parsed, on every host, to the
    instant that lies the offset before the UTC instant of its fields;
    with [Z] to that UTC instant itself. *)
Theorem parseDataFromIso8601_offset
    (host : Host) (y mo d h mi s off u : Z) :
  validFields y mo d h mi s -> Z.abs off < 1440 ->
  utcInstant y mo d h mi s 0 = Int u ->
  parseDataFromIso8601 host (isoDateTimeString y mo d h mi s ++ isoOffsetString off)
    = Int (u - off * msPerMinute) /\
  parseDataFromIso8601 host (isoDateTimeString y mo d h mi s ++ "Z") = Int u.
Proof.
  intros Hv Hoff Hu.
  destruct (utcInstant_valid _ _ _ _ _ _ Hv) as (u' & Hu' & Hsmall).
  rewrite Hu in Hu'. injection Hu' as <-.
  unfold parseDataFromIso8601, Date_parse. split.
  - rewrite (parseDateTimeString_fields host y mo d h mi s _ (Some off) Hv);
      [| unfold isoOffsetString;
         destruct (0 <=? off); exact I
       | now apply isoOffsetString_chars].
    rewrite Hu, sub_small by (unfold msPerMinute; lia).
    apply TimeClip_small. unfold maxTime, msPerMinute. lia.
  - rewrite (parseDateTimeString_fields host y mo d h mi s "Z" (Some 0) Hv);
      [| exact I | reflexivity].
    rewrite Hu. change (0 * msPerMinute) with 0.
    rewrite sub_small, Z.sub_0_r by lia.
    apply TimeClip_small. unfold maxTime. lia.
Qed.

(** The example of the docstring, ['2016-01-19T16:07:37+00:00'], and the
    same wall clock five and a half hours east. *)
Lemma parseDataFromIso8601_offset_witness :
  parseDataFromIso8601 istHost "2016-01-19T16:07:37+00:00" = Int 1453219657000 /\
  parseDataFromIso8601 istHost "2016-01-19T16:07:37+05:30" = Int 1453199857000.
Proof.
  split.
  - refine (proj1 (parseDataFromIso8601_offset istHost 2016 1 19 16 7 37 0
                     1453219657000 _ _ _));
      [vm_compute; intuition discriminate | reflexivity | reflexivity].
  - refine (proj1 (parseDataFromIso8601_offset istHost 2016 1 19 16 7 37 330
                     1453219657000 _ _ _));
      [vm_compute; intuition discriminate | reflexivity | reflexivity].
Defined.

(** X14. A date-time without an offset is local time: it is parsed to the
    UTC instant of its fields less the host's offset at that local
    time. *)
Theorem parseDataFromIso8601_local (host : Host) (y mo d h mi s u : Z) :
  validFields y mo d h mi s ->
  utcInstant y mo d h mi s 0 = Int u ->
  Z.abs (LocalTZA host u false) <= msPerDay ->
  parseDataFromIso8601 host (isoDateTimeString y mo d h mi s)
  = Int (u - LocalTZA host u false).
Proof.
  intros Hv Hu Htz.
  destruct (utcInstant_valid _ _ _ _ _ _ Hv) as (u' & Hu' & Hsmall).
  rewrite Hu in Hu'. injection Hu' as <-.
  unfold parseDataFromIso8601, Date_parse.
  pose proof (parseDateTimeString_fields host y mo d h mi s "" None Hv I eq_refl)
    as H.
  replace (isoDateTimeString y mo d h mi s ++ "")
    with (isoDateTimeString y mo d h mi s) in H.
  - rewrite H, Hu. cbn [UTC]. apply TimeClip_small.
    unfold maxTime, msPerDay in *. lia.
  - generalize (isoDateTimeString y mo d h mi s).
    intros x. induction x as [|c x IH]; cbn; [reflexivity | now rewrite <- IH].
Qed.

Lemma parseDataFromIso8601_local_witness :
  parseDataFromIso8601 istHost "2016-01-19T16:07:37" = Int 1453199857000.
Proof.
  apply (parseDataFromIso8601_local istHost 2016 1 19 16 7 37 1453219657000);
    [vm_compute; intuition discriminate | reflexivity
    | vm_compute; discriminate].
Defined.

(** X15. A date alone is UTC: on every host it is parsed to midnight UTC of
    that day. *)
Theorem parseDataFromIso8601_date_only (host : Host) (y mo d : Z) :
  0 <= y <= 9999 -> 1 <= mo <= 12 -> 1 <= d <= DaysInMonth y mo ->
  parseDataFromIso8601 host (isoDateString y mo d) = utcInstant y mo d 0 0 0 0.
Proof.
  intros Hy Hmo Hd.
  pose proof (DaysInMonth_range y mo) as Hdm.
  assert (Hv : validFields y mo d 0 0 0) by (unfold validFields; lia).
  destruct (utcInstant_valid _ _ _ _ _ _ Hv) as (u & Hu & Hsmall).
  unfold parseDataFromIso8601, Date_parse, parseDateTimeString.
  rewrite <- (app_nil_r (list_ascii_of_string (isoDateString y mo d))).
  rewrite isoDateString_chars by lia. cbn [bind].
  replace ((1 <=? mo) && (mo <=? 12) && (1 <=? d) && (d <=? DaysInMonth y mo))
    with true by (symmetry; rewrite !andb_true_iff, !Z.leb_le; lia).
  cbn [guard bind].
  change (MakeDate (MakeDay (Int y) (Int (mo - 1)) (Int d)) (Int 0))
    with (utcInstant y mo d 0 0 0 0).
  rewrite Hu. apply TimeClip_small. unfold maxTime. lia.
Qed.

Lemma parseDataFromIso8601_date_only_witness :
  parseDataFromIso8601 istHost "2016-02-29" = Int 1456704000000.
Proof.
  apply (parseDataFromIso8601_date_only istHost 2016 2 29);
    [lia | lia | vm_compute; split; discriminate].
Defined.
